(** * The F1 deep-dive dashboard ([hello.py]): data pipeline, selection
      filter and metrics, embedded as pure functions over lists of rows.

    Conventions of the embedding.
    - A DataFrame is a [list] of row records, in row order; a Series is the
      [map] of a column projection over it.
    - A cell as the data source delivers it is a [cell]: an integer, a
      float, a piece of text or a null.
    - A float64 value is a [num]: an exact rational or [NaN].  Rounding and
      infinities are outside the model; every arithmetic result is kept in
      lowest terms ([Qred]) so that equal numbers are equal terms.
    - A Python exception is a [Raise] result; [SystemExit] is kept apart
      from the exceptions that are errors.
    - The two library routines whose results the program does not fix, the
      text-to-number conversion inside [pd.to_numeric] and the default
      (quicksort) ordering inside [sort_values], are variables of the
      sections below, constrained only by what the library documents. *)

From Stdlib Require Import ZArith QArith Qreduction List String Ascii Bool.
From Stdlib Require Import Permutation Sorted Lia DecimalString.
Import ListNotations.

Local Open Scope Z_scope.
Local Open Scope string_scope.
Local Open Scope list_scope.

(** ** Values *)

Inductive cell : Type :=
| CInt (z : Z)
| CFloat (q : Q)
| CStr (s : string)
| CNull.

Inductive num : Type :=
| Num (q : Q)
| NaN.

Inductive exn : Type :=
| IntCastingNaNError   (* astype(int) on a column holding NaN *)
| IndexError.          (* [xs[0]] on an empty list *)

Inductive result (A : Type) : Type :=
| Ok (a : A)
| Raise (e : exn).
Arguments Ok {A} a.
Arguments Raise {A} e.

Definition isna (x : num) : bool :=
  match x with NaN => true | Num _ => false end.

Definition notna (x : num) : bool := negb (isna x).

(** Equality of two cells as [drop_duplicates] sees it: Python equality,
    under which the integer 1 and the float 1.0 are one value while the
    text "1" is another. *)
Definition cell_eqb (a b : cell) : bool :=
  match a, b with
  | CInt x, CInt y => Z.eqb x y
  | CInt x, CFloat q => Qeq_bool (inject_Z x) q
  | CFloat q, CInt y => Qeq_bool q (inject_Z y)
  | CFloat p, CFloat q => Qeq_bool p q
  | CStr s, CStr t => String.eqb s t
  | CNull, CNull => true
  | _, _ => false
  end.

Definition num_eqb (a b : num) : bool :=
  match a, b with
  | Num p, Num q => Qeq_bool p q
  | NaN, NaN => true
  | _, _ => false
  end.

(** ** The pandas operations the program calls *)

Module pd.

(** [series / d] for a float series and a constant. *)
Definition div (x : num) (d : Q) : num :=
  match x with
  | Num q => Num (Qred (q / d))
  | NaN => NaN
  end.

(** The non-missing values of a series, in order. *)
Fixpoint valid (s : list num) : list Q :=
  match s with
  | [] => []
  | Num q :: t => q :: valid t
  | NaN :: t => valid t
  end.

Definition total (v : list Q) : Q := fold_left Qplus v 0%Q.

Definition least (q : Q) (v : list Q) : Q :=
  fold_left (fun m x => if Qle_bool m x then m else x) v q.

(** [Series.sum()]: missing values skipped, 0 for nothing to add. *)
Definition sum (s : list num) : num := Num (Qred (total (valid s))).

(** [Series.mean()]: missing values skipped, NaN when nothing is left. *)
Definition mean (s : list num) : num :=
  match valid s with
  | [] => NaN
  | v => Num (Qred (total v / inject_Z (Z.of_nat (List.length v))))
  end.

(** [Series.min()]: missing values skipped, NaN when nothing is left. *)
Definition min (s : list num) : num :=
  match valid s with
  | [] => NaN
  | q :: v => Num (least q v)
  end.

(** A 64-bit signed integer: the value that is left of [z] when it wraps
    around outside the range of [int64]. *)
Definition int64 (z : Z) : Z := (z + 2 ^ 63) mod 2 ^ 64 - 2 ^ 63.

(** Conversion of one value to [int] (numpy's [int64]): truncation toward
    zero, then the 64-bit wrap-around. *)
Definition truncate (q : Q) : Z := int64 (Z.quot (Qnum q) (Zpos (Qden q))).

(** [Series.astype(int)]: raises as soon as the series holds a NaN. *)
Fixpoint astype_int (s : list num) : result (list Z) :=
  match s with
  | [] => Ok []
  | NaN :: _ => Raise IntCastingNaNError
  | Num q :: t =>
      match astype_int t with
      | Ok zs => Ok (truncate q :: zs)
      | Raise e => Raise e
      end
  end.

(** [df[mask]]: the rows at which the boolean mask holds. *)
Fixpoint getitem {A : Type} (df : list A) (mask : list bool) : list A :=
  match df, mask with
  | r :: df', b :: mask' =>
      if b then r :: getitem df' mask' else getitem df' mask'
  | _, _ => []
  end.

(** [mask1 & mask2]. *)
Fixpoint and_ (m1 m2 : list bool) : list bool :=
  match m1, m2 with
  | a :: m1', b :: m2' => (a && b) :: and_ m1' m2'
  | _, _ => []
  end.

(** [unique()] and [drop_duplicates()]: the first occurrence of every value
    is kept, in order of appearance. *)
Fixpoint keep_first {A : Type} (eqb : A -> A -> bool) (seen l : list A)
  : list A :=
  match l with
  | [] => []
  | x :: t =>
      if existsb (eqb x) seen then keep_first eqb seen t
      else x :: keep_first eqb (x :: seen) t
  end.

Definition drop_duplicates {A : Type} (eqb : A -> A -> bool) (df : list A)
  : list A := keep_first eqb [] df.

Definition unique {A : Type} (eqb : A -> A -> bool) (s : list A) : list A :=
  keep_first eqb [] s.

(** [left.merge(right, on=...)]: inner join; a left row is paired with every
    right row carrying its key, a row without a partner is dropped. *)
Definition merge {A B : Type} (on : A -> B -> bool)
  (left : list A) (right : list B) : list (A * B) :=
  flat_map (fun a => map (pair a) (filter (on a) right)) left.

(** [df.dropna()] over the columns that [keep] inspects. *)
Definition dropna {A : Type} (keep : A -> bool) (df : list A) : list A :=
  filter keep df.

(** [df.empty]. *)
Definition empty {A : Type} (df : list A) : bool :=
  match df with [] => true | _ :: _ => false end.

End pd.

(** ** Python built-ins *)

(** [sorted(xs)]: the built-in sort is stable; insertion from the right end
    keeps equal elements in their original order. *)
Fixpoint insert {A : Type} (leb : A -> A -> bool) (x : A) (l : list A)
  : list A :=
  match l with
  | [] => [x]
  | y :: t => if leb x y then x :: y :: t else y :: insert leb x t
  end.

Definition sorted {A : Type} (leb : A -> A -> bool) (l : list A) : list A :=
  fold_right (insert leb) [] l.

(** [xs[0]]. *)
Definition first {A : Type} (xs : list A) : result A :=
  match xs with
  | [] => Raise IndexError
  | x :: _ => Ok x
  end.

(** [str(n)] for an integer. *)
Definition str (n : Z) : string := NilZero.string_of_int (Z.to_int n).

Definition is_lower (c : ascii) : bool :=
  let n := nat_of_ascii c in ((97 <=? n) && (n <=? 122))%nat.

Definition is_upper (c : ascii) : bool :=
  let n := nat_of_ascii c in ((65 <=? n) && (n <=? 90))%nat.

Definition upper (c : ascii) : ascii :=
  if is_lower c then ascii_of_nat (nat_of_ascii c - 32) else c.

Definition lower (c : ascii) : ascii :=
  if is_upper c then ascii_of_nat (nat_of_ascii c + 32) else c.

(** [s.title()] on ASCII text: a letter that follows a letter is lowered, a
    letter that follows anything else is raised; other characters stay. *)
Fixpoint title_from (previous_is_cased : bool) (s : string) : string :=
  match s with
  | EmptyString => EmptyString
  | String c t =>
      String (if previous_is_cased then lower c else upper c)
             (title_from (is_lower c || is_upper c) t)
  end.

Definition title (s : string) : string := title_from false s.

(** ** The six tables and the two derived views *)

(** Rows as [get_df] delivers them.  Join keys and [round] are integers and
    the two reference columns are text, as in the data model; the columns
    that the program coerces with [pd.to_numeric] are raw cells. *)

Module RawRace.
Record t := { raceId : Z; year : cell; round : Z; circuitId : Z }.
End RawRace.

Module Race.
Record t := { raceId : Z; year : Z; round : Z; circuitId : Z }.
End Race.

Module LapTime.
Record t := { raceId : Z; driverId : Z; lap : cell; milliseconds : cell }.
End LapTime.

Module Result.
Record t := { raceId : Z; driverId : Z; points : cell }.
End Result.

Module Driver.
Record t := { driverId : Z; driverRef : string }.
End Driver.

Module RawCircuit.
Record t := { circuitId : Z; name : string; lat : cell; lng : cell }.
End RawCircuit.

Module Circuit.
Record t := { circuitId : Z; circuitName : string; lat : cell; lng : cell }.
End Circuit.

Module PitStop.
Record t := { raceId : Z; driverId : Z; stop : cell; milliseconds : cell }.
End PitStop.

(** What the data source holds under the six names. *)
Record source := {
  src_races : list RawRace.t;
  src_lap_times : list LapTime.t;
  src_results : list Result.t;
  src_drivers : list Driver.t;
  src_circuits : list RawCircuit.t;
  src_pit_stops : list PitStop.t
}.

(** The dictionary [T] that [load_tables] returns. *)
Record tables := {
  races : list Race.t;
  lap_times : list LapTime.t;
  results : list Result.t;
  drivers : list Driver.t;
  circuits : list Circuit.t;
  pit_stops : list PitStop.t
}.

(** A row of [MASTER]. *)
Module Master.
Record t := {
  raceId : Z; driverId : Z; lap : Z; milliseconds : num;
  driverRef : string;
  year : Z; round : Z; circuitId : Z;
  circuitName : string; lat : cell; lng : cell;
  lap_sec : num
}.
End Master.

(** A row of [RESULTS]. *)
Module Results.
Record t := {
  raceId : Z; driverId : Z; points : num;
  driverRef : string;
  year : Z; round : Z
}.
End Results.

(** A text-to-number conversion for the concrete examples: it reads plain
    decimal literals (an optional sign, digits, an optional fraction), on
    which it agrees with [pd.to_numeric], and rejects every other text. *)
Definition digit (c : ascii) : option Z :=
  let n := nat_of_ascii c in
  if ((48 <=? n) && (n <=? 57))%nat then Some (Z.of_nat (n - 48)) else None.

Fixpoint digits (acc : Z) (s : string) : option (Z * string) :=
  match s with
  | EmptyString => Some (acc, EmptyString)
  | String c t =>
      match digit c with
      | Some d => digits (10 * acc + d) t
      | None => Some (acc, s)
      end
  end.

Fixpoint fraction (acc : Z) (scale : positive) (s : string)
  : option (Z * positive) :=
  match s with
  | EmptyString => Some (acc, scale)
  | String c t =>
      match digit c with
      | Some d => fraction (10 * acc + d) (10 * scale)%positive t
      | None => None
      end
  end.

Definition unsigned_literal (s : string) : option Q :=
  match s with
  | EmptyString => None
  | String c _ =>
      match digit c with
      | None => None
      | Some _ =>
          match digits 0 s with
          | Some (n, EmptyString) => Some (inject_Z n)
          | Some (n, String "." rest) =>
              match fraction n 1 rest with
              | Some (m, scale) => Some (m # scale)%Q
              | None => None
              end
          | _ => None
          end
      end
  end.

Definition decimal_literal (s : string) : option Q :=
  match s with
  | String "-" t => option_map Qopp (unsigned_literal t)
  | String "+" t => unsigned_literal t
  | _ => unsigned_literal s
  end.

Section Pipeline.

(** The text-to-number conversion inside [pd.to_numeric]: [None] for text it
    rejects. *)
Variable parse_text : string -> option Q.

(** [pd.to_numeric(x, errors="coerce")] on one cell. *)
Definition to_numeric (c : cell) : num :=
  match c with
  | CInt z => Num (inject_Z z)
  | CFloat q => Num (Qred q)
  | CStr s =>
      match parse_text s with
      | Some q => Num (Qred q)
      | None => NaN
      end
  | CNull => NaN
  end.

(** [load_tables]: the year column of [races] is coerced and cast to [int],
    the display-name column of [circuits] is renamed. *)
Definition load_tables (src : source) : result tables :=
  match pd.astype_int (map (fun r => to_numeric (RawRace.year r)) (src_races src)) with
  | Raise e => Raise e
  | Ok years =>
      Ok {| races :=
              map (fun '(r, y) =>
                     {| Race.raceId := RawRace.raceId r; Race.year := y;
                        Race.round := RawRace.round r;
                        Race.circuitId := RawRace.circuitId r |})
                  (combine (src_races src) years);
            lap_times := src_lap_times src;
            results := src_results src;
            drivers := src_drivers src;
            circuits :=
              map (fun c =>
                     {| Circuit.circuitId := RawCircuit.circuitId c;
                        Circuit.circuitName := RawCircuit.name c;
                        Circuit.lat := RawCircuit.lat c;
                        Circuit.lng := RawCircuit.lng c |})
                  (src_circuits src);
            pit_stops := src_pit_stops src |}
  end.

(** [make_master]: laps joined to drivers, races and circuits, then the
    casts and the derived [lap_sec] column. *)
Definition make_master (T : tables) : result (list Master.t) :=
  let m :=
    pd.merge (fun '(l, _, r) c => (Race.circuitId r =? Circuit.circuitId c)%Z)
      (pd.merge (fun '(l, _) r => (LapTime.raceId l =? Race.raceId r)%Z)
         (pd.merge (fun l d => (LapTime.driverId l =? Driver.driverId d)%Z)
            (lap_times T) (drivers T))
         (races T))
      (circuits T) in
  match pd.astype_int
          (map (fun '(l, _, _, _) => to_numeric (LapTime.lap l)) m) with
  | Raise e => Raise e
  | Ok laps =>
      Ok (map (fun '((l, d, r, c), lap) =>
                 let milliseconds := to_numeric (LapTime.milliseconds l) in
                 {| Master.raceId := LapTime.raceId l;
                    Master.driverId := LapTime.driverId l;
                    Master.lap := lap;
                    Master.milliseconds := milliseconds;
                    Master.driverRef := Driver.driverRef d;
                    Master.year := Race.year r;
                    Master.round := Race.round r;
                    Master.circuitId := Race.circuitId r;
                    Master.circuitName := Circuit.circuitName c;
                    Master.lat := Circuit.lat c;
                    Master.lng := Circuit.lng c;
                    Master.lap_sec := pd.div milliseconds 1000 |})
              (combine m laps))
  end.

(** [make_results]: results joined to drivers and races, points coerced. *)
Definition make_results (T : tables) : list Results.t :=
  let r :=
    pd.merge (fun '(x, _) r => (Result.raceId x =? Race.raceId r)%Z)
      (pd.merge (fun x d => (Result.driverId x =? Driver.driverId d)%Z)
         (results T) (drivers T))
      (races T) in
  map (fun '(x, d, r) =>
         {| Results.raceId := Result.raceId x;
            Results.driverId := Result.driverId x;
            Results.points := to_numeric (Result.points x);
            Results.driverRef := Driver.driverRef d;
            Results.year := Race.year r;
            Results.round := Race.round r |})
      r.

End Pipeline.

(** ** What one run of the script shows *)

Inductive body : Type :=
| Literal (s : string)
| FastestLap (v : num)            (* "Fastest lap: {fastest_lap:.3f} s" *)
| AvgPitStop (v : option num)     (* "Avg. pit-stop: {avg_pit:.2f} s" or N/A *)
| PointsYTD (v : num).            (* "Points YTD: {pts:.0f}" *)

Inductive figure : Type :=
| fig1 (data : list Master.t) (title : string)
| fig2 (data : list Master.t) (title : string)
| fig3 (data : list (string * num)) (title : string)
| fig4 (data : list (Z * num)) (title : string)
| fig5 (data : list (Z * num)) (title : string)
| fig6 (data : list (string * num * num)) (title : string).

Inductive event : Type :=
| sidebar (defaultopen : bool)
| text (b : body)
| selectbox_season (label : string) (options : list Z) (default : Z)
| selectbox_driver (label : string) (options : list string) (default : string)
| alert (message : string) (level : string)
| separator
| plotly (fig : figure).

(** What the two select boxes hand back, given their options and default:
    the state of the user interface, which the script does not control. *)
Record ui := {
  season : list Z -> Z -> Z;
  driver : list string -> string -> string
}.

(** How a run ends: it reaches the last line, leaves through [SystemExit],
    or dies on an exception. *)
Inductive outcome (A : Type) : Type :=
| Done (a : A)
| SystemExit
| Error (e : exn).
Arguments Done {A} a.
Arguments SystemExit {A}.
Arguments Error {A} e.

(** A script step: the events it shows and how it ends. *)
Definition script (A : Type) : Type := list event * outcome A.

Definition ret {A : Type} (a : A) : script A := ([], Done a).

Definition bind {A B : Type} (m : script A) (k : A -> script B) : script B :=
  match m with
  | (shown, Done a) => let (more, o) := k a in (shown ++ more, o)
  | (shown, SystemExit) => (shown, SystemExit)
  | (shown, Error e) => (shown, Error e)
  end.

Definition emit (e : event) : script unit := ([e], Done tt).

Definition raise_SystemExit {A : Type} : script A := ([], SystemExit).

Definition lift {A : Type} (r : result A) : script A :=
  match r with
  | Ok a => ([], Done a)
  | Raise e => ([], Error e)
  end.

Notation "x <- m ;; k" := (bind m (fun x => k))
  (at level 61, m at next level, right associativity).
Notation "m ;; k" := (bind m (fun _ => k))
  (at level 61, right associativity).

Definition events {A : Type} (m : script A) : list event := fst m.
Definition ending {A : Type} (m : script A) : outcome A := snd m.

Definition is_alert (e : event) : bool :=
  match e with alert _ _ => true | _ => false end.

Definition is_plotly (e : event) : bool :=
  match e with plotly _ => true | _ => false end.

Definition is_metric (e : event) : bool :=
  match e with
  | text (FastestLap _) | text (AvgPitStop _) | text (PointsYTD _) => true
  | _ => false
  end.

(** The event is the empty-subset warning (line 71). *)
Definition warns_no_data (e : event) : bool :=
  match e with
  | alert message _ => String.prefix "⚠️ No data for " message
  | _ => false
  end.

(** Order of two float keys, NaN above every number. *)
Definition num_leb (a b : num) : bool :=
  match a, b with
  | Num p, Num q => Qle_bool p q
  | _, NaN => true
  | NaN, Num _ => false
  end.

Section Script.

Variable parse_text : string -> option Q.

(** The default ordering routine behind [sort_values] (numpy's quicksort
    kind), given the comparison of two rows by the sort column. *)
Variable quicksort : forall A : Type, (A -> A -> bool) -> list A -> list A.

(** [df.sort_values(by)] on a float column: the rows holding a number are
    ordered by the routine, the rows holding NaN follow in their original
    order. *)
Definition sort_values {A : Type} (by_ : A -> num) (df : list A) : list A :=
  quicksort A (fun a b => num_leb (by_ a) (by_ b))
    (filter (fun r => notna (by_ r)) df)
  ++ filter (fun r => isna (by_ r)) df.

(** [df.sort_values(by)] on an integer column. *)
Definition sort_values_int {A : Type} (by_ : A -> Z) (df : list A) : list A :=
  quicksort A (fun a b => (by_ a <=? by_ b)%Z) df.

(** [view[(view["year"] == year) & (view["driverRef"] == driver)]]. *)
Definition select {A : Type} (year_of : A -> Z) (driverRef_of : A -> string)
  (view : list A) (year : Z) (driver : string) : list A :=
  pd.getitem view
    (pd.and_ (map (fun r => (year_of r =? year)%Z) view)
             (map (fun r => (driverRef_of r =? driver)%string) view)).

(** Line 61: the seasons offered. *)
Definition years (MASTER : list Master.t) : list Z :=
  sorted (fun a b => (b <=? a)%Z) (pd.unique Z.eqb (map Master.year MASTER)).

(** Line 65: the drivers offered for a season. *)
Definition drivers_of (MASTER : list Master.t) (year : Z) : list string :=
  sorted String.leb
    (pd.unique String.eqb
       (map Master.driverRef
          (pd.getitem MASTER (map (fun r => (Master.year r =? year)%Z) MASTER)))).

(** Line 69: the filtered master view. *)
Definition df (MASTER : list Master.t) (year : Z) (driver : string)
  : list Master.t :=
  select Master.year Master.driverRef MASTER year driver.

(** Line 79. *)
Definition fastest_lap (df : list Master.t) : num :=
  pd.min (map Master.lap_sec df).

Definition key_eqb (a b : Z * Z) : bool :=
  ((fst a =? fst b)%Z && (snd a =? snd b)%Z)%bool.

(** Lines 83-86: the pit stops of the races and drivers in the subset. *)
Definition pits (T : tables) (df : list Master.t) : list PitStop.t :=
  map fst
    (pd.merge (fun p k => key_eqb (PitStop.raceId p, PitStop.driverId p) k)
       (pit_stops T)
       (pd.drop_duplicates key_eqb
          (map (fun r => (Master.raceId r, Master.driverId r)) df))).

(** Line 87: the coerced duration column of [pits]. *)
Definition pits_milliseconds (pits : list PitStop.t) : list num :=
  map (fun p => to_numeric parse_text (PitStop.milliseconds p)) pits.

(** Line 88. *)
Definition avg_pit (T : tables) (df : list Master.t) : option num :=
  let pits := pits T df in
  if negb (pd.empty pits)
  then Some (pd.div (pd.mean (pits_milliseconds pits)) 1000)
  else None.

(** Line 96. *)
Definition pts (RESULTS : list Results.t) (year : Z) (driver : string) : num :=
  pd.sum
    (map Results.points
       (select Results.year Results.driverRef RESULTS year driver)).

(** Lines 130-133: one row per circuit name, in ascending order of the
    names, with the smallest lap time of the group. *)
Definition groupby_min (df : list Master.t) : list (string * num) :=
  map (fun name =>
         (name,
          pd.min
            (map Master.lap_sec
               (filter (fun r => (Master.circuitName r =? name)%string) df))))
      (sorted String.leb (pd.unique String.eqb (map Master.circuitName df))).

(** Lines 130-135. *)
Definition fastest_by_circ (df : list Master.t) : list (string * num) :=
  sort_values snd (groupby_min df).

(** Line 167. *)
Definition pts_df (RESULTS : list Results.t) (year : Z) (driver : string)
  : list Results.t :=
  select Results.year Results.driverRef RESULTS year driver.

(** Line 171: [pts_df[["round","points"]].dropna().sort_values("round")]. *)
Definition points_by_round (pts_df : list Results.t) : list (Z * num) :=
  sort_values_int fst
    (pd.dropna (fun rp => notna (snd rp))
       (map (fun r => (Results.round r, Results.points r)) pts_df)).

Definition place_eqb (a b : string * cell * cell) : bool :=
  let '(n1, lat1, lng1) := a in
  let '(n2, lat2, lng2) := b in
  ((n1 =? n2)%string && cell_eqb lat1 lat2 && cell_eqb lng1 lng2)%bool.

(** Lines 184-187: duplicates are dropped from the raw triples, then the
    coordinates are coerced, then the rows without both are dropped. *)
Definition map_df (df : list Master.t) : list (string * num * num) :=
  pd.dropna (fun '(_, lat, lng) => (notna lat && notna lng)%bool)
    (map (fun '(name, lat, lng) =>
            (name, to_numeric parse_text lat, to_numeric parse_text lng))
       (pd.drop_duplicates place_eqb
          (map (fun r => (Master.circuitName r, Master.lat r, Master.lng r))
             df))).

(** Sections 3 to 9 of the script: the metric cards and the six charts. *)
Definition report (T : tables) (RESULTS : list Results.t)
  (year : Z) (driver : string) (df : list Master.t) : script unit :=
  emit separator ;;
  emit (text (FastestLap (fastest_lap df))) ;;
  emit (text (AvgPitStop (avg_pit T df))) ;;
  emit (text (PointsYTD (pts RESULTS year driver))) ;;
  emit separator ;;
  emit (plotly (fig1 df
    (title driver ++ " — Lap times by circuit in " ++ str year))) ;;
  emit (plotly (fig2 df
    (title driver ++ " lap-time distribution (" ++ str year ++ ")"))) ;;
  emit (plotly (fig3 (fastest_by_circ df)
    ("Fastest lap per circuit — " ++ title driver ++ " " ++ str year))) ;;
  emit (text (Literal "## 🛠 Pit-Stops Analysis")) ;;
  (let pits := pits T df in
   if pd.empty pits
   then emit (alert "⚠️ No pit-stop data" "warning")
   else
     stop <- lift (pd.astype_int
                     (map (fun p => to_numeric parse_text (PitStop.stop p))
                        pits)) ;;
     emit (plotly (fig4
       (combine stop (map (fun x => pd.div x 1000) (pits_milliseconds pits)))
       (title driver ++ " pit-stop durations (" ++ str year ++ ")")))) ;;
  emit (text (Literal "## 🏆 Points Progression")) ;;
  (let pts_df := pts_df RESULTS year driver in
   if pd.empty pts_df
   then emit (alert "⚠️ No points data" "warning")
   else emit (plotly (fig5 (points_by_round pts_df)
          (title driver ++ " points by round (" ++ str year ++ ")")))) ;;
  emit (text (Literal "## 🌍 Circuits Visited")) ;;
  (let map_df := map_df df in
   if pd.empty map_df
   then emit (alert "⚠️ No location data" "warning")
   else emit (plotly (fig6 map_df
          (title driver ++ " circuits in " ++ str year)))).

(** Sections 2 to 9: one run of the script for one state of the select
    boxes. *)
Definition dashboard (T : tables) (MASTER : list Master.t)
  (RESULTS : list Results.t) (u : ui) : script unit :=
  emit (sidebar true) ;;
  emit (text (Literal "# 🏁 F1 Deep-Dive Dashboard")) ;;
  let years := years MASTER in
  default <- lift (first years) ;;
  emit (selectbox_season "Select season" years default) ;;
  let year := season u years default in
  let drivers := drivers_of MASTER year in
  default <- lift (first drivers) ;;
  emit (selectbox_driver "Select driver" drivers default) ;;
  let driver := driver u drivers default in
  let df := df MASTER year driver in
  if pd.empty df
  then
    emit (alert ("⚠️ No data for " ++ title driver ++ " in " ++ str year)
            "warning") ;;
    raise_SystemExit
  else report T RESULTS year driver df.

(** The whole program: load, join, then the run. *)
Definition main (src : source) (u : ui) : script unit :=
  T <- lift (load_tables parse_text src) ;;
  MASTER <- lift (make_master parse_text T) ;;
  dashboard T MASTER (make_results parse_text T) u.

End Script.

(** ** Two ordering routines that honour the documented contract *)

(** Insertion behind the elements that compare equal: ties come out in the
    reverse of their input order. *)
Fixpoint insert_behind {A : Type} (leb : A -> A -> bool) (x : A) (l : list A)
  : list A :=
  match l with
  | [] => [x]
  | y :: t => if leb y x then y :: insert_behind leb x t else x :: y :: t
  end.

Definition ties_reversed (A : Type) (leb : A -> A -> bool) (l : list A)
  : list A := fold_right (insert_behind leb) [] l.

Definition ties_kept (A : Type) (leb : A -> A -> bool) (l : list A)
  : list A := sorted leb l.

(** What the library documents of the default [sort_values] ordering: the
    rows come back rearranged, in the order of the key; nothing is promised
    about rows with equal keys. *)
Definition sort_contract
  (sort : forall A : Type, (A -> A -> bool) -> list A -> list A) : Prop :=
  (forall (A : Type) (leb : A -> A -> bool) (l : list A),
      Permutation (sort A leb l) l)
  /\
  (forall (A : Type) (leb : A -> A -> bool),
      (forall a b, leb a b = true \/ leb b a = true) ->
      (forall a b c, leb a b = true -> leb b c = true -> leb a c = true) ->
      forall l, StronglySorted (fun a b => leb a b = true) (sort A leb l)).

(** [a] stands somewhere before [b] in [l]. *)
Definition before {A : Type} (a b : A) (l : list A) : Prop :=
  exists l1 l2 l3, l = l1 ++ a :: l2 ++ b :: l3.

(** Stable tie-break of [out] with respect to [base]: two rows with the same
    key keep the order they had in [base]. *)
Definition ties_in_order {A : Type} (key : A -> num) (base out : list A)
  : Prop :=
  forall a b, num_eqb (key a) (key b) = true -> before a b base -> before a b out.

(** The smallest of the non-missing values of a series, or NaN when there is
    none: what a null-skipping minimum has to return. *)
Definition is_min (s : list num) (m : num) : Prop :=
  match m with
  | NaN => forall q, ~ In (Num q) s
  | Num q => In (Num q) s /\ forall x, In (Num x) s -> (q <= x)%Q
  end.

(** The plain sum of a list of rationals. *)
Fixpoint add_up (v : list Q) : Q :=
  match v with
  | [] => 0%Q
  | q :: t => (q + add_up t)%Q
  end.

(** The null-skipping arithmetic mean, written with the division first:
    sum of the values over their count, NaN when no value is present. *)
Definition mean_of (s : list num) : num :=
  match pd.valid s with
  | [] => NaN
  | v => Num (Qred (add_up v / inject_Z (Z.of_nat (List.length v))))
  end.

(** The select boxes hand back one of the options they were given. *)
Definition from_options (u : ui) : Prop :=
  (forall options default, options <> [] -> In (season u options default) options)
  /\
  (forall options default, options <> [] -> In (driver u options default) options).

(** The message of the empty-subset warning. *)
Definition no_data (driver : string) (year : Z) : string :=
  "⚠️ No data for " ++ title driver ++ " in " ++ str year.

(** ** Example data *)

Definition race (raceId : Z) (year : cell) (round circuitId : Z) : RawRace.t :=
  {| RawRace.raceId := raceId; RawRace.year := year;
     RawRace.round := round; RawRace.circuitId := circuitId |}.

Definition lap_time (raceId driverId : Z) (lap milliseconds : cell) : LapTime.t :=
  {| LapTime.raceId := raceId; LapTime.driverId := driverId;
     LapTime.lap := lap; LapTime.milliseconds := milliseconds |}.

Definition result_row (raceId driverId : Z) (points : cell) : Result.t :=
  {| Result.raceId := raceId; Result.driverId := driverId;
     Result.points := points |}.

Definition driver_row (driverId : Z) (driverRef : string) : Driver.t :=
  {| Driver.driverId := driverId; Driver.driverRef := driverRef |}.

Definition circuit (circuitId : Z) (name : string) (lat lng : cell)
  : RawCircuit.t :=
  {| RawCircuit.circuitId := circuitId; RawCircuit.name := name;
     RawCircuit.lat := lat; RawCircuit.lng := lng |}.

Definition pit_stop (raceId driverId : Z) (stop milliseconds : cell)
  : PitStop.t :=
  {| PitStop.raceId := raceId; PitStop.driverId := driverId;
     PitStop.stop := stop; PitStop.milliseconds := milliseconds |}.

(** What [load_tables], [make_master] and [make_results] build from a
    source; nothing when one of them raises. *)
Definition tables_of (src : source) : tables :=
  match load_tables decimal_literal src with
  | Ok T => T
  | Raise _ =>
      {| races := []; lap_times := []; results := []; drivers := [];
         circuits := []; pit_stops := [] |}
  end.

Definition master_of (src : source) : list Master.t :=
  match make_master decimal_literal (tables_of src) with
  | Ok m => m
  | Raise _ => []
  end.

Definition results_of (src : source) : list Results.t :=
  make_results decimal_literal (tables_of src).

(** Two seasons: in 2021 one driver with three laps at Silverstone (92.1 s,
    91.8 s, 93.0 s) and one lap at Monza, one result without points; in 2020
    another driver. *)
Definition two_seasons : source :=
  {| src_races :=
       [race 1 (CInt 2021) 1 1; race 2 (CStr "2021") 2 2; race 3 (CInt 2020) 1 1];
     src_lap_times :=
       [lap_time 1 1 (CInt 1) (CInt 92100); lap_time 1 1 (CInt 2) (CInt 91800);
        lap_time 1 1 (CInt 3) (CInt 93000); lap_time 2 1 (CInt 1) (CStr "85000");
        lap_time 3 2 (CInt 1) (CInt 95000)];
     src_results :=
       [result_row 1 1 (CInt 25); result_row 2 1 (CStr "\N");
        result_row 3 2 (CFloat 18)];
     src_drivers := [driver_row 1 "max_verstappen"; driver_row 2 "hamilton"];
     src_circuits :=
       [circuit 1 "Silverstone" (CFloat (5207 # 100)) (CFloat (-102 # 100));
        circuit 2 "Monza" (CStr "45.62") (CNull)];
     src_pit_stops :=
       [pit_stop 1 1 (CInt 1) (CInt 22000); pit_stop 1 1 (CInt 2) (CInt 24000);
        pit_stop 3 2 (CInt 1) (CInt 30000)] |}.

(** One driver in 2021 with the lap times 92.1 s, 91.8 s and 93.0 s, all at
    Silverstone. *)
Definition silverstone_laps : source :=
  {| src_races := [race 1 (CInt 2021) 1 1];
     src_lap_times :=
       [lap_time 1 1 (CInt 1) (CInt 92100); lap_time 1 1 (CInt 2) (CInt 91800);
        lap_time 1 1 (CInt 3) (CInt 93000)];
     src_results := [];
     src_drivers := [driver_row 1 "max_verstappen"];
     src_circuits := [circuit 1 "Silverstone" CNull CNull];
     src_pit_stops := [] |}.

(** The driver box still holds a driver of another season. *)
Definition stale_driver : ui :=
  {| season := fun _ _ => 2021; driver := fun _ _ => "hamilton" |}.

(** Both boxes hand back the first option they offer. *)
Definition first_option : ui :=
  {| season := fun options default => hd default options;
     driver := fun options default => hd default options |}.

(** Four circuits whose fastest laps are, in the alphabetical order of the
    circuit names, 93 s, 92 s, 91 s and 91 s. *)
Definition tied_circuits : source :=
  {| src_races :=
       [race 1 (CInt 2021) 1 1; race 2 (CInt 2021) 2 2;
        race 3 (CInt 2021) 3 3; race 4 (CInt 2021) 4 4];
     src_lap_times :=
       [lap_time 1 1 (CInt 1) (CInt 93000); lap_time 2 1 (CInt 1) (CInt 92000);
        lap_time 3 1 (CInt 1) (CInt 91000); lap_time 4 1 (CInt 1) (CInt 91000)];
     src_results := [];
     src_drivers := [driver_row 1 "max_verstappen"];
     src_circuits :=
       [circuit 1 "Bahrain" CNull CNull; circuit 2 "Imola" CNull CNull;
        circuit 3 "Monza" CNull CNull; circuit 4 "Spa" CNull CNull];
     src_pit_stops := [] |}.

(** One place entered twice in the circuits table, its latitude written
    once as 45.6 and once as 45.60. *)
Definition twin_circuits : source :=
  {| src_races := [race 1 (CInt 2021) 1 1; race 2 (CInt 2021) 2 2];
     src_lap_times :=
       [lap_time 1 1 (CInt 1) (CInt 90000); lap_time 2 1 (CInt 1) (CInt 91000)];
     src_results := [];
     src_drivers := [driver_row 1 "max_verstappen"];
     src_circuits :=
       [circuit 1 "Monza" (CStr "45.6") (CStr "9.3");
        circuit 2 "Monza" (CStr "45.60") (CStr "9.3")];
     src_pit_stops := [] |}.

(** A races table with one year that is not a number. *)
Definition unreadable_year : source :=
  {| src_races := [race 1 (CInt 2021) 1 1; race 2 (CStr "n/a") 2 1];
     src_lap_times := [lap_time 1 1 (CInt 1) (CInt 90000)];
     src_results := [result_row 1 1 (CInt 25)];
     src_drivers := [driver_row 1 "max_verstappen"];
     src_circuits := [circuit 1 "Monza" CNull CNull];
     src_pit_stops := [] |}.

(** A lap-times table with one lap number that is missing. *)
Definition unreadable_lap : source :=
  {| src_races := [race 1 (CInt 2021) 1 1];
     src_lap_times :=
       [lap_time 1 1 (CInt 1) (CInt 90000); lap_time 1 1 CNull (CInt 91000)];
     src_results := [result_row 1 1 (CInt 25)];
     src_drivers := [driver_row 1 "max_verstappen"];
     src_circuits := [circuit 1 "Monza" CNull CNull];
     src_pit_stops := [] |}.

(** Durations and points that are not numbers. *)
Definition unreadable_values : source :=
  {| src_races := [race 1 (CInt 2021) 1 1];
     src_lap_times :=
       [lap_time 1 1 (CInt 1) (CStr "n/a"); lap_time 1 1 (CInt 2) CNull];
     src_results := [result_row 1 1 (CStr "n/a")];
     src_drivers := [driver_row 1 "max_verstappen"];
     src_circuits := [circuit 1 "Monza" CNull CNull];
     src_pit_stops := [] |}.

(** The filtered subsets of the examples. *)
Definition verstappen_2021 : list Master.t :=
  df (master_of two_seasons) 2021 "max_verstappen".

Definition tied_subset : list Master.t :=
  df (master_of tied_circuits) 2021 "max_verstappen".

Definition twin_subset : list Master.t :=
  df (master_of twin_circuits) 2021 "max_verstappen".

(** ** Facts about the list operations *)

Section ListFacts.

Context {A : Type}.

Lemma insert_perm (leb : A -> A -> bool) (x : A) (l : list A) :
  Permutation (insert leb x l) (x :: l).
Proof.
  induction l as [|y t IH]; simpl.
  - apply Permutation_refl.
  - destruct (leb x y).
    + apply Permutation_refl.
    + eapply perm_trans; [apply perm_skip, IH | apply perm_swap].
Qed.

Lemma sorted_perm (leb : A -> A -> bool) (l : list A) :
  Permutation (sorted leb l) l.
Proof.
  induction l as [|x t IH]; simpl.
  - constructor.
  - eapply perm_trans; [apply insert_perm | apply perm_skip, IH].
Qed.

Lemma insert_behind_perm (leb : A -> A -> bool) (x : A) (l : list A) :
  Permutation (insert_behind leb x l) (x :: l).
Proof.
  induction l as [|y t IH]; simpl.
  - apply Permutation_refl.
  - destruct (leb y x).
    + eapply perm_trans; [apply perm_skip, IH | apply perm_swap].
    + apply Permutation_refl.
Qed.

Lemma ties_reversed_perm (leb : A -> A -> bool) (l : list A) :
  Permutation (ties_reversed A leb l) l.
Proof.
  induction l as [|x t IH]; simpl.
  - constructor.
  - eapply perm_trans; [apply insert_behind_perm | apply perm_skip, IH].
Qed.

Section Ordered.

Variable leb : A -> A -> bool.
Hypothesis leb_total : forall a b, leb a b = true \/ leb b a = true.
Hypothesis leb_trans :
  forall a b c, leb a b = true -> leb b c = true -> leb a c = true.

Let le (a b : A) : Prop := leb a b = true.

Lemma insert_sorted (x : A) (l : list A) :
  StronglySorted le l -> StronglySorted le (insert leb x l).
Proof.
  induction 1 as [|y t Hs IH Hall]; simpl.
  - repeat constructor.
  - destruct (leb x y) eqn:Hxy.
    + constructor; [constructor; assumption|].
      constructor; [exact Hxy|].
      eapply Forall_impl; [|exact Hall].
      intros z Hz. exact (leb_trans _ _ _ Hxy Hz).
    + constructor; [exact IH|].
      assert (Hyx : le y x).
      { destruct (leb_total x y) as [H|H]; [congruence | exact H]. }
      eapply Permutation_Forall.
      * apply Permutation_sym, insert_perm.
      * constructor; assumption.
Qed.

Lemma sorted_sorted (l : list A) : StronglySorted le (sorted leb l).
Proof.
  induction l as [|x t IH]; simpl.
  - constructor.
  - apply insert_sorted, IH.
Qed.

Lemma insert_behind_sorted (x : A) (l : list A) :
  StronglySorted le l -> StronglySorted le (insert_behind leb x l).
Proof.
  induction 1 as [|y t Hs IH Hall]; simpl.
  - repeat constructor.
  - destruct (leb y x) eqn:Hyx.
    + constructor; [exact IH|].
      eapply Permutation_Forall.
      * apply Permutation_sym, insert_behind_perm.
      * constructor; assumption.
    + assert (Hxy : le x y).
      { destruct (leb_total x y) as [H|H]; [exact H | congruence]. }
      constructor; [constructor; assumption|].
      constructor; [exact Hxy|].
      eapply Forall_impl; [|exact Hall].
      intros z Hz. exact (leb_trans _ _ _ Hxy Hz).
Qed.

Lemma ties_reversed_sorted (l : list A) :
  StronglySorted le (ties_reversed A leb l).
Proof.
  induction l as [|x t IH]; simpl.
  - constructor.
  - apply insert_behind_sorted, IH.
Qed.

End Ordered.

Lemma sorted_In (leb : A -> A -> bool) (l : list A) (x : A) :
  In x (sorted leb l) <-> In x l.
Proof.
  split; apply Permutation_in;
    [apply sorted_perm | apply Permutation_sym, sorted_perm].
Qed.

Lemma StronglySorted_app (R : A -> A -> Prop) (l1 l2 : list A) :
  StronglySorted R l1 -> StronglySorted R l2 ->
  (forall a b, In a l1 -> In b l2 -> R a b) ->
  StronglySorted R (l1 ++ l2).
Proof.
  induction 1 as [|x t Hs IH Hall]; intros H2 Hcross; simpl.
  - exact H2.
  - constructor.
    + apply IH; [exact H2|]. intros a b Ha Hb.
      apply Hcross; [right; exact Ha | exact Hb].
    + apply Forall_app; split; [exact Hall|].
      apply Forall_forall. intros b Hb. apply Hcross; [left; reflexivity | exact Hb].
Qed.

End ListFacts.

Lemma ties_kept_contract : sort_contract ties_kept.
Proof.
  split.
  - intros A leb l. apply sorted_perm.
  - intros A leb Htot Htr l. apply sorted_sorted; assumption.
Qed.

Lemma ties_reversed_contract : sort_contract ties_reversed.
Proof.
  split.
  - intros A leb l. apply ties_reversed_perm.
  - intros A leb Htot Htr l. apply ties_reversed_sorted; assumption.
Qed.

(** ** The selection filter *)

Lemma getitem_and_filter {A : Type} (f g : A -> bool) (view : list A) :
  pd.getitem view (pd.and_ (map f view) (map g view))
  = filter (fun r => f r && g r) view.
Proof.
  induction view as [|r t IH]; simpl.
  - reflexivity.
  - rewrite IH. reflexivity.
Qed.

Lemma getitem_filter {A : Type} (f : A -> bool) (view : list A) :
  pd.getitem view (map f view) = filter f view.
Proof.
  induction view as [|r t IH]; simpl.
  - reflexivity.
  - rewrite IH. reflexivity.
Qed.

Lemma select_filter {A : Type} (year_of : A -> Z) (driverRef_of : A -> string)
  (view : list A) (year : Z) (driver : string) :
  select year_of driverRef_of view year driver
  = filter (fun r => (year_of r =? year)%Z && (driverRef_of r =? driver)%string)
      view.
Proof. apply getitem_and_filter. Qed.

Lemma select_In {A : Type} (year_of : A -> Z) (driverRef_of : A -> string)
  (view : list A) (year : Z) (driver : string) (r : A) :
  In r (select year_of driverRef_of view year driver)
  <-> In r view /\ year_of r = year /\ driverRef_of r = driver.
Proof.
  rewrite select_filter, filter_In, andb_true_iff, Z.eqb_eq, String.eqb_eq.
  reflexivity.
Qed.

Lemma select_nil {A : Type} (year_of : A -> Z) (driverRef_of : A -> string)
  (view : list A) (year : Z) (driver : string) :
  (forall r, In r view -> ~ (year_of r = year /\ driverRef_of r = driver)) ->
  select year_of driverRef_of view year driver = [].
Proof.
  intro Hnone.
  destruct (select year_of driverRef_of view year driver) as [|r t] eqn:E.
  - reflexivity.
  - exfalso. assert (Hr : In r (r :: t)) by (left; reflexivity).
    rewrite <- E in Hr. apply select_In in Hr.
    destruct Hr as [Hin Hkey]. exact (Hnone r Hin Hkey).
Qed.

(** C1.  For every view, year and driverRef the selection filter returns
    exactly the rows of the view whose year and driverRef equal the given
    ones, in the order of the view: it is the linear scan of the view under
    that test.  Hence a row is returned if and only if it is a row of the
    view with that year and driverRef, the number of rows returned is the
    number of rows a linear scan counts, and a pair that matches no row
    yields the empty subset. *)
Theorem select_exact :
  forall (A : Type) (year_of : A -> Z) (driverRef_of : A -> string)
         (view : list A) (year : Z) (driver : string),
    let hit r := ((year_of r =? year)%Z && (driverRef_of r =? driver)%string)%bool in
    select year_of driverRef_of view year driver = filter hit view
    /\ (forall r, In r (select year_of driverRef_of view year driver)
                  <-> In r view /\ year_of r = year /\ driverRef_of r = driver)
    /\ List.length (select year_of driverRef_of view year driver)
       = List.length (filter hit view)
    /\ ((forall r, In r view -> ~ (year_of r = year /\ driverRef_of r = driver))
        -> select year_of driverRef_of view year driver = []).
Proof.
  intros A year_of driverRef_of view year driver hit.
  split; [apply select_filter|].
  split; [intro r; apply select_In|].
  split; [rewrite select_filter; reflexivity|].
  apply select_nil.
Qed.

(** ** First occurrences *)

Section KeepFirst.

Context {A : Type}.
Variable eqb : A -> A -> bool.

Lemma keep_first_incl (seen l : list A) (x : A) :
  In x (pd.keep_first eqb seen l) -> In x l.
Proof.
  revert seen. induction l as [|y t IH]; intros seen; simpl.
  - intros [].
  - destruct (existsb (eqb y) seen).
    + intro H. right. exact (IH _ H).
    + intros [H|H]; [left; exact H | right; exact (IH _ H)].
Qed.

Hypothesis eqb_eq : forall a b, eqb a b = true <-> a = b.

Lemma existsb_eqb_In (x : A) (l : list A) :
  existsb (eqb x) l = true <-> In x l.
Proof.
  rewrite existsb_exists. split.
  - intros [y [Hy He]]. apply eqb_eq in He. subst y. exact Hy.
  - intro H. exists x. split; [exact H | apply eqb_eq; reflexivity].
Qed.

Lemma keep_first_In (seen l : list A) (x : A) :
  In x (pd.keep_first eqb seen l) <-> In x l /\ ~ In x seen.
Proof.
  revert seen. induction l as [|y t IH]; intros seen; simpl.
  - tauto.
  - destruct (existsb (eqb y) seen) eqn:E.
    + apply existsb_eqb_In in E. rewrite IH. split.
      * intros [H1 H2]. tauto.
      * intros [[H1|H1] H2]; [subst y; contradiction | tauto].
    + assert (Hy : ~ In y seen).
      { intro H. apply existsb_eqb_In in H. congruence. }
      simpl. rewrite IH. simpl. split.
      * intros [H|[H1 H2]]; [subst y; tauto | tauto].
      * intros [[H1|H1] H2]; [left; exact H1|].
        destruct (eqb y x) eqn:Eyx.
        -- apply eqb_eq in Eyx. left; exact Eyx.
        -- right. split; [exact H1|]. intros [H|H]; [|contradiction].
           subst y. assert (eqb x x = true) by (apply eqb_eq; reflexivity).
           congruence.
Qed.

Lemma keep_first_NoDup (seen l : list A) : NoDup (pd.keep_first eqb seen l).
Proof.
  revert seen. induction l as [|y t IH]; intros seen; simpl.
  - constructor.
  - destruct (existsb (eqb y) seen).
    + apply IH.
    + constructor; [|apply IH].
      rewrite keep_first_In. intros [_ H]. apply H. left; reflexivity.
Qed.

Lemma unique_In (l : list A) (x : A) : In x (pd.unique eqb l) <-> In x l.
Proof. unfold pd.unique. rewrite keep_first_In. simpl. tauto. Qed.

Lemma unique_NoDup (l : list A) : NoDup (pd.unique eqb l).
Proof. apply keep_first_NoDup. Qed.

Lemma drop_duplicates_In (l : list A) (x : A) :
  In x (pd.drop_duplicates eqb l) <-> In x l.
Proof. unfold pd.drop_duplicates. rewrite keep_first_In. simpl. tauto. Qed.

Lemma drop_duplicates_NoDup (l : list A) : NoDup (pd.drop_duplicates eqb l).
Proof. apply keep_first_NoDup. Qed.

End KeepFirst.

(** ** The select boxes and the empty-subset guard *)

Lemma years_In (MASTER : list Master.t) (year : Z) :
  In year (years MASTER) <-> exists r, In r MASTER /\ Master.year r = year.
Proof.
  unfold years. rewrite sorted_In, (unique_In Z.eqb Z.eqb_eq), in_map_iff.
  split; intros [r [H1 H2]]; exists r; tauto.
Qed.

Lemma drivers_of_In (MASTER : list Master.t) (year : Z) (driver : string) :
  In driver (drivers_of MASTER year)
  <-> exists r, In r MASTER /\ Master.year r = year
                /\ Master.driverRef r = driver.
Proof.
  unfold drivers_of.
  rewrite sorted_In, (unique_In String.eqb String.eqb_eq), in_map_iff.
  rewrite getitem_filter.
  split.
  - intros [r [H1 H2]]. apply filter_In in H2. destruct H2 as [H2 H3].
    apply Z.eqb_eq in H3. exists r. tauto.
  - intros [r [H1 [H2 H3]]]. exists r. split; [exact H3|].
    apply filter_In. split; [exact H1 | apply Z.eqb_eq; exact H2].
Qed.

Lemma offered_pair_has_rows (MASTER : list Master.t) (year : Z) (driver : string) :
  In year (years MASTER) -> In driver (drivers_of MASTER year) ->
  df MASTER year driver <> [].
Proof.
  intros _ Hd. apply drivers_of_In in Hd. destruct Hd as [r [H1 [H2 H3]]].
  assert (Hr : In r (df MASTER year driver)).
  { unfold df. apply select_In. tauto. }
  intro E. rewrite E in Hr. exact Hr.
Qed.

Lemma first_Ok {A : Type} (xs : list A) : xs <> [] -> exists x, first xs = Ok x.
Proof.
  destruct xs as [|x t]; [congruence|]. intros _. exists x. reflexivity.
Qed.

Lemma first_Ok_nonempty {A : Type} (xs : list A) (x : A) :
  first xs = Ok x -> xs <> [].
Proof. destruct xs; simpl; congruence. Qed.

Section Runs.

Variable parse_text : string -> option Q.
Variable quicksort : forall A : Type, (A -> A -> bool) -> list A -> list A.

Local Abbreviation run := (dashboard parse_text quicksort).

(** The run up to the guard, when both select boxes could be shown. *)
Lemma dashboard_unfold (T : tables) (MASTER : list Master.t)
  (RESULTS : list Results.t) (u : ui) (y0 : Z) (d0 : string) :
  first (years MASTER) = Ok y0 ->
  first (drivers_of MASTER (season u (years MASTER) y0)) = Ok d0 ->
  let year := season u (years MASTER) y0 in
  let driver := driver u (drivers_of MASTER year) d0 in
  run T MASTER RESULTS u
  = ([sidebar true; text (Literal "# 🏁 F1 Deep-Dive Dashboard");
      selectbox_season "Select season" (years MASTER) y0;
      selectbox_driver "Select driver" (drivers_of MASTER year) d0]
     ++ events
          (if pd.empty (df MASTER year driver)
           then emit (alert (no_data driver year) "warning") ;; raise_SystemExit
           else report parse_text quicksort T RESULTS year driver
                  (df MASTER year driver)),
     ending
       (if pd.empty (df MASTER year driver)
        then emit (alert (no_data driver year) "warning") ;; raise_SystemExit
        else report parse_text quicksort T RESULTS year driver
               (df MASTER year driver))).
Proof.
  intros Hy Hd year driver. subst year driver. unfold dashboard.
  rewrite Hy. cbn [lift bind emit app].
  rewrite Hd. cbn [lift bind emit app].
  unfold no_data, events, ending.
  destruct (pd.empty _).
  - reflexivity.
  - destruct (report _ _ _ _ _ _ _) as [shown o]. destruct o; reflexivity.
Qed.

(** Sections 3 to 9 never leave through [SystemExit] and never show the
    no-data warning. *)
Lemma report_no_exit (T : tables) (RESULTS : list Results.t) (year : Z)
  (driver : string) (df : list Master.t) :
  ending (report parse_text quicksort T RESULTS year driver df) <> SystemExit
  /\ filter warns_no_data
       (events (report parse_text quicksort T RESULTS year driver df)) = [].
Proof.
  unfold report.
  destruct (pd.empty (pits T df));
    [|destruct (pd.astype_int _)];
    destruct (pd.empty (pts_df RESULTS year driver));
    destruct (pd.empty (map_df parse_text df));
    (split; [cbn; discriminate | reflexivity]).
Qed.

(** C2.  Whenever both select boxes were shown and the filtered subset of
    the selected (year, driver) pair is empty, the run shows the title, the
    two select boxes and then exactly one alert, of level warning, whose
    message names the driver (title-cased) and the season; it then leaves
    through [SystemExit].  No metric card and no chart is shown, and the run
    does not die on an exception. *)
Theorem empty_subset_warns_once_and_stops :
  forall (T : tables) (MASTER : list Master.t) (RESULTS : list Results.t)
         (u : ui) (y0 : Z) (d0 : string),
    first (years MASTER) = Ok y0 ->
    first (drivers_of MASTER (season u (years MASTER) y0)) = Ok d0 ->
    let year := season u (years MASTER) y0 in
    let driver := driver u (drivers_of MASTER year) d0 in
    df MASTER year driver = [] ->
    run T MASTER RESULTS u
    = ([sidebar true; text (Literal "# 🏁 F1 Deep-Dive Dashboard");
        selectbox_season "Select season" (years MASTER) y0;
        selectbox_driver "Select driver" (drivers_of MASTER year) d0;
        alert (no_data driver year) "warning"],
       SystemExit)
    /\ filter is_alert (events (run T MASTER RESULTS u))
       = [alert (no_data driver year) "warning"]
    /\ (exists pre mid, no_data driver year
                        = (pre ++ title driver ++ mid ++ str year)%string)
    /\ filter is_metric (events (run T MASTER RESULTS u)) = []
    /\ filter is_plotly (events (run T MASTER RESULTS u)) = []
    /\ (forall e, ending (run T MASTER RESULTS u) <> Error e).
Proof.
  intros T MASTER RESULTS u y0 d0 Hy Hd year driver Hempty.
  assert (Hrun : run T MASTER RESULTS u
    = ([sidebar true; text (Literal "# 🏁 F1 Deep-Dive Dashboard");
        selectbox_season "Select season" (years MASTER) y0;
        selectbox_driver "Select driver" (drivers_of MASTER year) d0;
        alert (no_data driver year) "warning"],
       SystemExit)).
  { rewrite (dashboard_unfold T MASTER RESULTS u y0 d0 Hy Hd).
    fold year. fold driver. rewrite Hempty. reflexivity. }
  rewrite Hrun. split; [reflexivity|].
  split; [reflexivity|].
  split; [exists "⚠️ No data for ", " in "; reflexivity|].
  split; [reflexivity|].
  split; [reflexivity|].
  intros e. cbn. discriminate.
Qed.

(** C10.  Every pair taken from the seasons offered and from the drivers
    offered for that season selects at least one row of the master view.
    Hence, when the select boxes hand back one of the options they offer,
    the run never takes the empty-subset branch: it does not leave through
    [SystemExit] and shows no no-data warning. *)
Theorem offered_selection_is_never_empty :
  forall (T : tables) (MASTER : list Master.t) (RESULTS : list Results.t)
         (u : ui),
    (forall year driver,
        In year (years MASTER) -> In driver (drivers_of MASTER year) ->
        df MASTER year driver <> [])
    /\ (from_options u ->
        ending (run T MASTER RESULTS u) <> SystemExit
        /\ filter warns_no_data (events (run T MASTER RESULTS u)) = []).
Proof.
  intros T MASTER RESULTS u. split.
  - intros year driver. apply offered_pair_has_rows.
  - intros [Hseason Hdriver].
    destruct (years MASTER) as [|y0 ys] eqn:Ey.
    + unfold dashboard. rewrite Ey. split; [cbn; discriminate | reflexivity].
    + assert (Hy : first (years MASTER) = Ok y0) by (rewrite Ey; reflexivity).
      assert (Hyear : In (season u (years MASTER) y0) (years MASTER)).
      { apply Hseason. rewrite Ey. discriminate. }
      set (year := season u (years MASTER) y0) in *.
      assert (Hds : drivers_of MASTER year <> []).
      { apply years_In in Hyear. destruct Hyear as [r [H1 H2]].
        assert (Hin : In (Master.driverRef r) (drivers_of MASTER year)).
        { apply drivers_of_In. exists r. tauto. }
        intro E. rewrite E in Hin. exact Hin. }
      destruct (first_Ok _ Hds) as [d0 Hd].
      assert (Hdrv : In (driver u (drivers_of MASTER year) d0)
                        (drivers_of MASTER year)).
      { apply Hdriver. exact Hds. }
      set (who := driver u (drivers_of MASTER year) d0) in *.
      pose proof (offered_pair_has_rows MASTER year who Hyear Hdrv) as Hrows.
      rewrite (dashboard_unfold T MASTER RESULTS u y0 d0 Hy Hd).
      fold year. fold who.
      destruct (df MASTER year who) as [|r rows] eqn:Edf; [congruence|].
      cbn [pd.empty].
      destruct (report_no_exit T RESULTS year who (r :: rows)) as [H1 H2].
      split.
      * exact H1.
      * cbn [events fst]. rewrite filter_app, H2. reflexivity.
Qed.

End Runs.

(** ** Null-skipping aggregates *)

Lemma valid_In (s : list num) (q : Q) : In q (pd.valid s) <-> In (Num q) s.
Proof.
  induction s as [|x t IH]; simpl.
  - tauto.
  - destruct x as [p|]; simpl; rewrite IH; split.
    + intros [H|H]; [left; congruence | right; exact H].
    + intros [H|H]; [left; congruence | right; exact H].
    + intro H; right; exact H.
    + intros [H|H]; [discriminate | exact H].
Qed.

Lemma valid_nil (s : list num) :
  pd.valid s = [] <-> forall q, ~ In (Num q) s.
Proof.
  split.
  - intros E q H. apply valid_In in H. rewrite E in H. exact H.
  - intro H. destruct (pd.valid s) as [|q v] eqn:E; [reflexivity|].
    exfalso. apply (H q). apply valid_In. rewrite E. left; reflexivity.
Qed.

Lemma least_le (v : list Q) (q : Q) :
  (pd.least q v <= q)%Q /\ forall x, In x v -> (pd.least q v <= x)%Q.
Proof.
  unfold pd.least. revert q. induction v as [|y t IH]; intros q; simpl.
  - split; [apply Qle_refl | intros x []].
  - destruct (Qle_bool q y) eqn:E.
    + apply Qle_bool_iff in E. destruct (IH q) as [H1 H2]. split; [exact H1|].
      intros x [Hx|Hx]; [subst x; eapply Qle_trans; eassumption | apply H2, Hx].
    + assert (Hyq : (y <= q)%Q).
      { apply Qlt_le_weak, Qnot_le_lt. intro H. apply Qle_bool_iff in H.
        congruence. }
      destruct (IH y) as [H1 H2]. split.
      * eapply Qle_trans; eassumption.
      * intros x [Hx|Hx]; [subst x; exact H1 | apply H2, Hx].
Qed.

Lemma least_In (v : list Q) (q : Q) : In (pd.least q v) (q :: v).
Proof.
  unfold pd.least. revert q. induction v as [|y t IH]; intros q; simpl.
  - left; reflexivity.
  - destruct (Qle_bool q y).
    + destruct (IH q) as [H|H]; [left; exact H | right; right; exact H].
    + right. exact (IH y).
Qed.

Lemma min_is_min (s : list num) : is_min s (pd.min s).
Proof.
  unfold pd.min. destruct (pd.valid s) as [|q v] eqn:E; simpl.
  - apply valid_nil, E.
  - split.
    + apply valid_In. rewrite E. apply least_In.
    + intros x Hx. apply valid_In in Hx. rewrite E in Hx.
      destruct (least_le v q) as [H1 H2].
      destruct Hx as [Hx|Hx]; [subst x; exact H1 | apply H2, Hx].
Qed.

Lemma total_add_up_from (v : list Q) (a : Q) :
  (fold_left Qplus v a == a + add_up v)%Q.
Proof.
  revert a. induction v as [|x t IH]; intros a; simpl.
  - ring.
  - rewrite IH. ring.
Qed.

Lemma total_add_up (v : list Q) : (pd.total v == add_up v)%Q.
Proof. unfold pd.total. rewrite total_add_up_from. ring. Qed.

Lemma valid_map_div (s : list num) (d : Q) :
  pd.valid (map (fun x => pd.div x d) s)
  = map (fun q => Qred (q / d)) (pd.valid s).
Proof.
  induction s as [|x t IH]; simpl.
  - reflexivity.
  - destruct x as [q|]; simpl; rewrite IH; reflexivity.
Qed.

Lemma add_up_map_div (v : list Q) (d : Q) :
  (add_up (map (fun q => Qred (q / d)) v) == add_up v / d)%Q.
Proof.
  induction v as [|x t IH]; cbn [add_up map].
  - unfold Qdiv. ring.
  - rewrite IH, (Qred_correct (x / d)). unfold Qdiv. ring.
Qed.

(** The mean of the scaled values is the scaled mean. *)
Lemma mean_div (s : list num) (d : Q) :
  pd.div (pd.mean s) d = mean_of (map (fun x => pd.div x d) s).
Proof.
  unfold pd.mean, mean_of. rewrite valid_map_div.
  destruct (pd.valid s) as [|q v]; cbn [map pd.div]; [reflexivity|].
  f_equal. apply Qred_complete.
  change (Qred (q / d) :: map (fun q0 => Qred (q0 / d)) v)
    with (map (fun q0 => Qred (q0 / d)) (q :: v)).
  rewrite Qred_correct, length_map, total_add_up, add_up_map_div.
  unfold Qdiv. ring.
Qed.

(** ** The metric cards *)

(** C7.  The fastest lap is the null-skipping minimum of the lap times of
    the subset: a lap time of the subset that no other lap time of the
    subset undercuts, or NaN when the subset holds no lap time.  On a
    non-empty subset whose lap times are all present it is a number; on the
    empty subset it is NaN, a value and not an exception. *)
Theorem fastest_lap_is_minimum :
  forall df : list Master.t,
    is_min (map Master.lap_sec df) (fastest_lap df)
    /\ (df <> [] -> (forall r, In r df -> Master.lap_sec r <> NaN) ->
        exists q r, fastest_lap df = Num q /\ In r df
                    /\ Master.lap_sec r = Num q
                    /\ forall r' x, In r' df -> Master.lap_sec r' = Num x ->
                                    (q <= x)%Q)
    /\ fastest_lap [] = NaN.
Proof.
  intro df. pose proof (min_is_min (map Master.lap_sec df)) as Hmin.
  split; [exact Hmin|]. split; [|reflexivity].
  intros Hne Hall. unfold fastest_lap in *.
  destruct (pd.min (map Master.lap_sec df)) as [q|]; simpl in Hmin.
  - destruct Hmin as [Hin Hle]. apply in_map_iff in Hin.
    destruct Hin as [r [Hr1 Hr2]]. exists q, r.
    repeat split; try assumption.
    intros r' x Hr' Hx. apply Hle. rewrite <- Hx. apply in_map, Hr'.
  - exfalso. destruct df as [|r t]; [congruence|].
    destruct (Master.lap_sec r) as [q|] eqn:E.
    + apply (Hmin q). left. exact E.
    + apply (Hall r); [left; reflexivity | exact E].
Qed.

(** C6.  The points total is the sum of the points that are present in the
    result rows of the given year and driverRef; it is the number 0, not
    NaN, when no result row matches. *)
Theorem pts_is_sum :
  forall (RESULTS : list Results.t) (year : Z) (driver : string),
    let hit r := ((Results.year r =? year)%Z
                  && (Results.driverRef r =? driver)%string)%bool in
    pts RESULTS year driver
    = Num (Qred (add_up (pd.valid (map Results.points (filter hit RESULTS)))))
    /\ ((forall r, In r RESULTS ->
                   ~ (Results.year r = year /\ Results.driverRef r = driver))
        -> pts RESULTS year driver = Num 0).
Proof.
  intros RESULTS year driver hit.
  assert (E : pts RESULTS year driver
              = Num (Qred (add_up (pd.valid (map Results.points
                                               (filter hit RESULTS)))))).
  { unfold pts, pd.sum. rewrite select_filter. f_equal.
    apply Qred_complete, total_add_up. }
  split; [exact E|].
  intro Hnone. rewrite E.
  assert (Hnil : filter hit RESULTS = []).
  { unfold hit. rewrite <- (select_filter Results.year Results.driverRef).
    apply select_nil. exact Hnone. }
  rewrite Hnil. reflexivity.
Qed.

Lemma key_eqb_eq (a b : Z * Z) : key_eqb a b = true <-> a = b.
Proof.
  destruct a as [a1 a2], b as [b1 b2]. unfold key_eqb. simpl.
  rewrite andb_true_iff, !Z.eqb_eq. split.
  - intros [H1 H2]. congruence.
  - intro H. inversion H. tauto.
Qed.

Lemma filter_eqb_absent {A : Type} (eqb : A -> A -> bool) (k : A) (l : list A) :
  (forall a b, eqb a b = true <-> a = b) ->
  ~ In k l -> filter (eqb k) l = [].
Proof.
  intros Heq. induction l as [|x t IH]; simpl; intro Hk.
  - reflexivity.
  - destruct (eqb k x) eqn:E.
    + apply Heq in E. exfalso. apply Hk. left. congruence.
    + apply IH. intro H. apply Hk. right. exact H.
Qed.

Lemma filter_eqb_once {A : Type} (eqb : A -> A -> bool) (k : A) (l : list A) :
  (forall a b, eqb a b = true <-> a = b) ->
  NoDup l -> In k l -> filter (eqb k) l = [k].
Proof.
  intros Heq. induction 1 as [|x t Hx Hnd IH]; simpl; intro Hk.
  - contradiction.
  - destruct (eqb k x) eqn:E.
    + apply Heq in E. subst x. f_equal.
      apply filter_eqb_absent; assumption.
    + destruct Hk as [Hk|Hk].
      * subst x. assert (eqb k k = true) by (apply Heq; reflexivity).
        congruence.
      * apply IH, Hk.
Qed.

(** The pit stops kept by the join are the rows of the pit-stop table whose
    (raceId, driverId) pair occurs in the subset, each once, in the order
    of the table. *)
Lemma pits_filter (T : tables) (df : list Master.t) :
  pits T df
  = filter
      (fun p =>
         existsb (fun r => key_eqb (PitStop.raceId p, PitStop.driverId p)
                             (Master.raceId r, Master.driverId r)) df)
      (pit_stops T).
Proof.
  unfold pits, pd.merge.
  set (keys := pd.drop_duplicates key_eqb
                 (map (fun r => (Master.raceId r, Master.driverId r)) df)).
  induction (pit_stops T) as [|p t IH]; simpl.
  - reflexivity.
  - rewrite map_app, IH, map_map. simpl.
    set (k := (PitStop.raceId p, PitStop.driverId p)).
    change (fun k0 : Z * Z => key_eqb k k0) with (key_eqb k).
    destruct (existsb (fun r => key_eqb k (Master.raceId r, Master.driverId r)) df)
      eqn:E.
    + assert (Hin : In k keys).
      { apply (drop_duplicates_In key_eqb key_eqb_eq).
        apply existsb_exists in E. destruct E as [r [Hr He]].
        apply key_eqb_eq in He. rewrite He.
        apply (in_map (fun r => (Master.raceId r, Master.driverId r))), Hr. }
      rewrite (filter_eqb_once key_eqb k keys key_eqb_eq
                 (drop_duplicates_NoDup key_eqb key_eqb_eq _) Hin).
      reflexivity.
    + assert (Hout : ~ In k keys).
      { intro H. unfold keys in H.
        rewrite (drop_duplicates_In key_eqb key_eqb_eq) in H.
        apply in_map_iff in H. destruct H as [r [Hk Hr]].
        assert (Ht : existsb (fun r => key_eqb k (Master.raceId r, Master.driverId r)) df = true).
        { apply existsb_exists. exists r. split; [exact Hr|].
          apply key_eqb_eq. congruence. }
        congruence. }
      rewrite (filter_eqb_absent key_eqb k keys key_eqb_eq Hout).
      reflexivity.
Qed.

Section Metrics.

Variable parse_text : string -> option Q.

(** C4.  [avg_pit] works on the pit stops joined to the distinct (raceId,
    driverId) pairs of the subset: the rows of the pit-stop table whose pair
    occurs in the subset, each taken once.  It is [None], the value rendered
    as N/A, exactly when no pit stop is joined; otherwise it is the
    null-skipping arithmetic mean of milliseconds/1000 over the joined rows
    (NaN when none of them carries a readable duration). *)
Theorem avg_pit_is_mean_or_missing :
  forall (T : tables) (df : list Master.t),
    let joined :=
      filter
        (fun p =>
           existsb (fun r => key_eqb (PitStop.raceId p, PitStop.driverId p)
                               (Master.raceId r, Master.driverId r)) df)
        (pit_stops T) in
    let seconds p := pd.div (to_numeric parse_text (PitStop.milliseconds p)) 1000 in
    pits T df = joined
    /\ (avg_pit parse_text T df = None <-> joined = [])
    /\ (joined <> [] ->
        avg_pit parse_text T df = Some (mean_of (map seconds joined))).
Proof.
  intros T df joined seconds.
  assert (Hp : pits T df = joined) by apply pits_filter.
  split; [exact Hp|].
  unfold avg_pit. rewrite Hp.
  destruct joined as [|p t] eqn:E; cbn [pd.empty negb].
  - split; [tauto | congruence].
  - split; [split; discriminate|].
    intros _. f_equal. unfold pits_milliseconds.
    rewrite mean_div, map_map. reflexivity.
Qed.

End Metrics.

(** ** Ordered outputs *)

Lemma num_leb_total (a b : num) : num_leb a b = true \/ num_leb b a = true.
Proof.
  destruct a as [p|], b as [q|]; simpl; auto.
  destruct (Qle_bool p q) eqn:E; [left; reflexivity | right].
  apply Qle_bool_iff, Qlt_le_weak, Qnot_le_lt. intro H.
  apply Qle_bool_iff in H. congruence.
Qed.

Lemma num_leb_trans (a b c : num) :
  num_leb a b = true -> num_leb b c = true -> num_leb a c = true.
Proof.
  destruct a as [p|], b as [q|], c as [r|]; simpl; try congruence.
  rewrite !Qle_bool_iff. apply Qle_trans.
Qed.

Lemma notna_isna_perm {A : Type} (key : A -> num) (l : list A) :
  Permutation (filter (fun r => notna (key r)) l
               ++ filter (fun r => isna (key r)) l) l.
Proof.
  induction l as [|x t IH]; simpl.
  - constructor.
  - unfold notna at 1. destruct (isna (key x)); simpl.
    + apply Permutation_sym. eapply perm_trans.
      * apply perm_skip, Permutation_sym, IH.
      * apply Permutation_middle.
    + apply perm_skip, IH.
Qed.

Lemma StronglySorted_weaken {A : Type} (R R' : A -> A -> Prop) (l : list A) :
  (forall a b, R a b -> R' a b) -> StronglySorted R l -> StronglySorted R' l.
Proof.
  intros Himp. induction 1 as [|x t Hs IH Hall]; constructor.
  - exact IH.
  - eapply Forall_impl; [|exact Hall]. intros b. apply Himp.
Qed.

Lemma StronglySorted_all_related {A : Type} (R : A -> A -> Prop) (l : list A) :
  (forall a b, In b l -> R a b) -> StronglySorted R l.
Proof.
  induction l as [|x t IH]; intro H; constructor.
  - apply IH. intros a b Hb. apply H. right; exact Hb.
  - apply Forall_forall. intros b Hb. apply H. right; exact Hb.
Qed.

Lemma groupby_min_names (df : list Master.t) :
  map fst (groupby_min df)
  = sorted String.leb (pd.unique String.eqb (map Master.circuitName df)).
Proof.
  unfold groupby_min. rewrite map_map. simpl. apply map_id.
Qed.

Lemma groupby_min_In (df : list Master.t) (name : string) (v : num) :
  In (name, v) (groupby_min df) ->
  v = pd.min (map Master.lap_sec
                (filter (fun r => (Master.circuitName r =? name)%string) df)).
Proof.
  unfold groupby_min. rewrite in_map_iff. intros [n [E _]].
  inversion E. reflexivity.
Qed.

Section Sorting.

Variable quicksort : forall A : Type, (A -> A -> bool) -> list A -> list A.
Hypothesis quicksort_ok : sort_contract quicksort.

Lemma sort_values_perm {A : Type} (key : A -> num) (l : list A) :
  Permutation (sort_values quicksort key l) l.
Proof.
  unfold sort_values. eapply perm_trans; [|apply (notna_isna_perm key)].
  apply Permutation_app_tail. apply (proj1 quicksort_ok).
Qed.

Lemma sort_values_sorted {A : Type} (key : A -> num) (l : list A) :
  StronglySorted (fun a b => num_leb (key a) (key b) = true)
    (sort_values quicksort key l).
Proof.
  unfold sort_values. apply StronglySorted_app.
  - apply (proj2 quicksort_ok A (fun a b => num_leb (key a) (key b))).
    + intros a b. apply num_leb_total.
    + intros a b c. apply num_leb_trans.
  - apply StronglySorted_all_related. intros a b Hb.
    apply filter_In in Hb. destruct Hb as [_ Hb].
    destruct (key b); [discriminate|]. destruct (key a); reflexivity.
  - intros a b _ Hb. apply filter_In in Hb. destruct Hb as [_ Hb].
    destruct (key b); [discriminate|]. destruct (key a); reflexivity.
Qed.

(** C5, as the program has it.  For every subset, [fastest_by_circ] returns
    one row per distinct circuit name of the subset; the value of a row is
    the null-skipping minimum of the lap times of that circuit's rows; the
    rows are in ascending order of the value, rows without a value last.
    Nothing is said about the order of rows with equal values. *)
Theorem fastest_by_circ_minima_ascending :
  forall df : list Master.t,
    let out := fastest_by_circ quicksort df in
    NoDup (map fst out)
    /\ (forall name, In name (map fst out)
                     <-> In name (map Master.circuitName df))
    /\ (forall name v,
           In (name, v) out ->
           is_min (map Master.lap_sec
                     (filter (fun r => (Master.circuitName r =? name)%string) df))
                  v)
    /\ StronglySorted (fun a b => num_leb (snd a) (snd b) = true) out.
Proof.
  intros df out.
  assert (Hperm : Permutation out (groupby_min df)) by apply sort_values_perm.
  assert (Hnames : Permutation (map fst out)
                     (pd.unique String.eqb (map Master.circuitName df))).
  { eapply perm_trans; [apply Permutation_map, Hperm|].
    rewrite groupby_min_names. apply sorted_perm. }
  split.
  - eapply Permutation_NoDup; [apply Permutation_sym, Hnames|].
    apply (unique_NoDup String.eqb String.eqb_eq).
  - split.
    + intro name.
      rewrite <- (unique_In String.eqb String.eqb_eq
                    (map Master.circuitName df)).
      split.
      * apply Permutation_in, Hnames.
      * apply Permutation_in, Permutation_sym, Hnames.
    + split.
      * intros name v Hin.
        rewrite (groupby_min_In df name v (Permutation_in _ Hperm Hin)).
        apply min_is_min.
      * apply sort_values_sorted.
Qed.

(** C8.  The points by round are the (round, points) pairs of the result
    rows of the given year and driverRef, with exactly the pairs whose
    points are missing left out, rearranged into ascending order of the
    round. *)
Theorem points_by_round_sorted :
  forall (RESULTS : list Results.t) (year : Z) (driver : string),
    let out := points_by_round quicksort (pts_df RESULTS year driver) in
    Permutation out
      (filter (fun rp => notna (snd rp))
         (map (fun r => (Results.round r, Results.points r))
            (pts_df RESULTS year driver)))
    /\ (forall round points,
           In (round, points) out
           <-> points <> NaN
               /\ exists r, In r RESULTS /\ Results.year r = year
                            /\ Results.driverRef r = driver
                            /\ Results.round r = round
                            /\ Results.points r = points)
    /\ StronglySorted (fun a b => (fst a <= fst b)%Z) out.
Proof.
  intros RESULTS year driver out.
  assert (Hperm : Permutation out
      (filter (fun rp => notna (snd rp))
         (map (fun r => (Results.round r, Results.points r))
            (pts_df RESULTS year driver)))).
  { apply (proj1 quicksort_ok). }
  split; [exact Hperm|]. split.
  - intros round points. split.
    + intro Hin. apply (Permutation_in _ Hperm) in Hin.
      apply filter_In in Hin. destruct Hin as [Hin Hna].
      apply in_map_iff in Hin. destruct Hin as [r [E Hr]].
      inversion E; subst. apply select_In in Hr.
      split.
      * intro Hp. simpl in Hna. rewrite Hp in Hna. discriminate.
      * exists r. tauto.
    + intros [Hp [r [H1 [H2 [H3 [H4 H5]]]]]].
      apply (Permutation_in _ (Permutation_sym Hperm)).
      apply filter_In. split.
      * apply in_map_iff. exists r. split; [congruence|].
        apply select_In. tauto.
      * simpl. destruct points; [reflexivity | congruence].
  - apply (StronglySorted_weaken (fun a b => (fst a <=? fst b)%Z = true)).
    + intros a b. apply Z.leb_le.
    + apply (proj2 quicksort_ok (Z * num)%type (fun a b => (fst a <=? fst b)%Z)).
      * intros a b. destruct (Z.leb_spec (fst a) (fst b)); [left; reflexivity|].
        right. apply Z.leb_le. lia.
      * intros a b c. rewrite !Z.leb_le. lia.
Qed.

End Sorting.

(** ** The casts to [int] *)

Lemma astype_int_NaN (s : list num) :
  In NaN s -> pd.astype_int s = Raise IntCastingNaNError.
Proof.
  induction s as [|x t IH]; simpl.
  - intros [].
  - destruct x as [q|]; [|reflexivity].
    intros [H|H]; [discriminate|]. rewrite (IH H). reflexivity.
Qed.

Lemma astype_int_Ok (s : list num) :
  (forall x, In x s -> x <> NaN) ->
  pd.astype_int s = Ok (map pd.truncate (pd.valid s)).
Proof.
  induction s as [|x t IH]; simpl; intro H.
  - reflexivity.
  - destruct x as [q|].
    + rewrite IH; [reflexivity|]. intros y Hy. apply H. right; exact Hy.
    + exfalso. apply (H NaN); [left|]; reflexivity.
Qed.

(** Whatever the text-to-number conversion, [load_tables] raises as soon as
    one year of the races table is coerced to NaN. *)
Lemma load_tables_raises (parse_text : string -> option Q) (src : source)
  (r : RawRace.t) :
  In r (src_races src) -> to_numeric parse_text (RawRace.year r) = NaN ->
  load_tables parse_text src = Raise IntCastingNaNError.
Proof.
  intros Hr Hy. unfold load_tables. rewrite astype_int_NaN; [reflexivity|].
  rewrite <- Hy.
  apply (in_map (fun r => to_numeric parse_text (RawRace.year r))), Hr.
Qed.

(** ** The examples, run *)

(** Goes through the rows of a concrete table, closing each case with the
    given tactic. *)
Ltac each_row H tac :=
  vm_compute in H;
  repeat (destruct H as [H|H]; [subst; tac|]);
  try contradiction.

(** The scenario of the two seasons, run with a driver box that still holds
    a driver of another season: one warning, then [SystemExit]. *)
Lemma empty_subset_warns_once_and_stops_witness :
  dashboard decimal_literal ties_kept (tables_of two_seasons)
    (master_of two_seasons) (results_of two_seasons) stale_driver
  = ([sidebar true; text (Literal "# 🏁 F1 Deep-Dive Dashboard");
      selectbox_season "Select season" [2021; 2020] 2021;
      selectbox_driver "Select driver" ["max_verstappen"] "max_verstappen";
      alert "⚠️ No data for Hamilton in 2021" "warning"],
     SystemExit).
Proof.
  destruct (empty_subset_warns_once_and_stops decimal_literal ties_kept
              (tables_of two_seasons) (master_of two_seasons)
              (results_of two_seasons) stale_driver 2021 "max_verstappen")
    as [Hrun _].
  - reflexivity.
  - reflexivity.
  - reflexivity.
  - exact Hrun.
Defined.

Lemma first_option_from_options : from_options first_option.
Proof.
  split; intros options default Hne; destruct options as [|x t];
    try congruence; left; reflexivity.
Qed.

(** The same scenario with boxes that hand back an offered option: the pair
    (2021, max_verstappen) is offered, it selects rows, and the run goes
    past the guard. *)
Lemma offered_selection_is_never_empty_witness :
  List.length verstappen_2021 = 4%nat
  /\ verstappen_2021 <> []
  /\ ending (dashboard decimal_literal ties_kept (tables_of two_seasons)
               (master_of two_seasons) (results_of two_seasons) first_option)
     <> SystemExit.
Proof.
  destruct (offered_selection_is_never_empty decimal_literal ties_kept
              (tables_of two_seasons) (master_of two_seasons)
              (results_of two_seasons) first_option) as [Hrows Hrun].
  split; [reflexivity|]. split.
  - apply Hrows.
    + left. reflexivity.
    + left. reflexivity.
  - apply Hrun. exact first_option_from_options.
Defined.

(** Four circuits whose fastest laps are 93 s, 92 s, 91 s and 91 s in the
    groupby order Bahrain, Imola, Monza, Spa.  An ordering routine that
    honours the contract and returns this descending column reversed gives
    Spa, Monza, Imola, Bahrain: the two circuits tied at 91 s come out in
    the reverse of their groupby order, so the tie-break is not stable. *)
Lemma fastest_by_circ_ties_not_stable :
  sort_contract ties_reversed
  /\ tied_subset <> []
  /\ groupby_min tied_subset
     = [("Bahrain", Num 93); ("Imola", Num 92); ("Monza", Num 91);
        ("Spa", Num 91)]
  /\ fastest_by_circ ties_reversed tied_subset
     = [("Spa", Num 91); ("Monza", Num 91); ("Imola", Num 92);
        ("Bahrain", Num 93)]
  /\ ~ ties_in_order snd (groupby_min tied_subset)
         (fastest_by_circ ties_reversed tied_subset).
Proof.
  split; [exact ties_reversed_contract|].
  split; [discriminate|].
  split; [reflexivity|]. split; [reflexivity|].
  intro H.
  assert (Hb : before ("Monza", Num 91) ("Spa", Num 91)
                 (groupby_min tied_subset)).
  { exists [("Bahrain", Num 93); ("Imola", Num 92)], [], []. reflexivity. }
  destruct (H ("Monza", Num 91) ("Spa", Num 91) eq_refl Hb) as [l1 [l2 [l3 E]]].
  vm_compute in E.
  destruct l1 as [|a1 [|a2 [|a3 [|a4 l1]]]]; cbn in E.
  - inversion E.
  - destruct l2 as [|b1 [|b2 [|b3 l2]]]; cbn in E; inversion E.
  - inversion E.
  - inversion E.
  - destruct l1; inversion E.
Qed.

(** The stable routine honours the contract too; with it the fastest laps
    of the 2021 season of the example come out as Monza 85 s, Silverstone
    91.8 s. *)
Lemma fastest_by_circ_minima_ascending_witness :
  fastest_by_circ ties_kept verstappen_2021
  = [("Monza", Num 85); ("Silverstone", Num (459 # 5))]
  /\ StronglySorted (fun a b => num_leb (snd a) (snd b) = true)
       (fastest_by_circ ties_kept verstappen_2021).
Proof.
  split; [reflexivity|].
  apply (fastest_by_circ_minima_ascending ties_kept ties_kept_contract
           verstappen_2021).
Defined.

Lemma points_by_round_sorted_witness :
  points_by_round ties_kept (pts_df (results_of two_seasons) 2021 "max_verstappen")
  = [(1, Num 25)]
  /\ StronglySorted (fun a b => (fst a <= fst b)%Z)
       (points_by_round ties_kept
          (pts_df (results_of two_seasons) 2021 "max_verstappen")).
Proof.
  split; [reflexivity|].
  apply (points_by_round_sorted ties_kept ties_kept_contract
           (results_of two_seasons) 2021 "max_verstappen").
Defined.

(** C9 on the code.  The place entered twice, with its latitude written as
    45.6 and as 45.60, passes [drop_duplicates] as two different raw
    triples; after the coercion the circuit map holds the same triple
    twice. *)
Theorem map_df_keeps_equal_places :
  map_df decimal_literal twin_subset
  = [("Monza", Num (228 # 5), Num 9.3); ("Monza", Num (228 # 5), Num 9.3)]
  /\ ~ NoDup (map_df decimal_literal
                twin_subset).
Proof.
  split; [reflexivity|].
  intro H. vm_compute in H. inversion H as [|x l Hx _]. apply Hx.
  left. reflexivity.
Qed.

(** C3 on the code.  A year that is not a number becomes NaN under the
    coercion and the cast to [int] that follows raises: [load_tables] and
    with it the whole program die.  The same happens for a missing lap
    number in [make_master].  Durations and points that are not numbers do
    become NaN without an exception. *)
Theorem unreadable_year_or_lap_raises :
  to_numeric decimal_literal (CStr "n/a") = NaN
  /\ load_tables decimal_literal unreadable_year = Raise IntCastingNaNError
  /\ main decimal_literal ties_kept unreadable_year first_option
     = ([], Error IntCastingNaNError)
  /\ make_master decimal_literal (tables_of unreadable_lap)
     = Raise IntCastingNaNError
  /\ main decimal_literal ties_kept unreadable_lap first_option
     = ([], Error IntCastingNaNError)
  /\ map Master.milliseconds (master_of unreadable_values) = [NaN; NaN]
  /\ map Results.points (results_of unreadable_values) = [NaN]
  /\ ending (main decimal_literal ties_kept unreadable_values first_option)
     = Done tt.
Proof. repeat split; reflexivity. Qed.

(** The filter on the example: four rows for (2021, max_verstappen), none
    for (2021, hamilton), who drove in 2020 only. *)
Lemma select_exact_witness :
  List.length verstappen_2021 = 4%nat
  /\ df (master_of two_seasons) 2021 "hamilton" = [].
Proof.
  split; [reflexivity|].
  apply (select_exact Master.t Master.year Master.driverRef
           (master_of two_seasons) 2021 "hamilton").
  intros r Hr [Hy Hd]. each_row Hr ltac:(simpl in *; discriminate).
Defined.

(** The scenario of the specification: lap times 92.1 s, 91.8 s and 93.0 s
    at Silverstone give 91.8 s as the fastest lap and as the only row of the
    per-circuit table. *)
Lemma fastest_lap_is_minimum_witness :
  fastest_lap (df (master_of silverstone_laps) 2021 "max_verstappen")
  = Num (459 # 5)
  /\ fastest_by_circ ties_kept
       (df (master_of silverstone_laps) 2021 "max_verstappen")
     = [("Silverstone", Num (459 # 5))]
  /\ exists q r,
       fastest_lap (df (master_of silverstone_laps) 2021 "max_verstappen")
       = Num q
       /\ In r (df (master_of silverstone_laps) 2021 "max_verstappen")
       /\ Master.lap_sec r = Num q
       /\ forall r' x,
            In r' (df (master_of silverstone_laps) 2021 "max_verstappen") ->
            Master.lap_sec r' = Num x -> (q <= x)%Q.
Proof.
  split; [reflexivity|]. split; [reflexivity|].
  apply (fastest_lap_is_minimum
           (df (master_of silverstone_laps) 2021 "max_verstappen")).
  - discriminate.
  - intros r Hr. each_row Hr ltac:(discriminate).
Defined.

(** The example season: 25 points for (2021, max_verstappen), the result
    without points skipped; 0 for a pair without result rows. *)
Lemma pts_is_sum_witness :
  pts (results_of two_seasons) 2021 "max_verstappen" = Num 25
  /\ pts (results_of two_seasons) 2019 "max_verstappen" = Num 0.
Proof.
  split; [reflexivity|].
  apply (pts_is_sum (results_of two_seasons) 2019 "max_verstappen").
  intros r Hr [Hy Hd]. each_row Hr ltac:(simpl in *; discriminate).
Defined.

(** The example season: two pit stops of 22 s and 24 s are joined to the
    2021 rows of max_verstappen, their mean is 23 s; no pit stop is joined to
    the empty subset, and the card shows N/A. *)
Lemma avg_pit_is_mean_or_missing_witness :
  avg_pit decimal_literal (tables_of two_seasons)
    verstappen_2021 = Some (Num 23)
  /\ avg_pit decimal_literal (tables_of two_seasons)
       (df (master_of two_seasons) 2021 "hamilton") = None.
Proof.
  split.
  - destruct (avg_pit_is_mean_or_missing decimal_literal (tables_of two_seasons)
                verstappen_2021)
      as [_ [_ Hmean]].
    rewrite Hmean; [reflexivity | discriminate].
  - apply (avg_pit_is_mean_or_missing decimal_literal (tables_of two_seasons)
             (df (master_of two_seasons) 2021 "hamilton")).
    reflexivity.
Defined.

(** ** Inner joins *)

Lemma merge_In {A B : Type} (on : A -> B -> bool) (left : list A)
  (right : list B) (a : A) (b : B) :
  In (a, b) (pd.merge on left right)
  <-> In a left /\ In b right /\ on a b = true.
Proof.
  unfold pd.merge. rewrite in_flat_map. split.
  - intros [x [Hx Hp]]. apply in_map_iff in Hp. destruct Hp as [y [E Hy]].
    inversion E; subst. apply filter_In in Hy. tauto.
  - intros [Ha [Hb Hon]]. exists a. split; [exact Ha|].
    apply in_map. apply filter_In. tauto.
Qed.

(** When no left row has two partners, the left rows that come out of the
    join are the left rows that have a partner, once each and in order. *)
Lemma merge_at_most_one {A B : Type} (on : A -> B -> bool) (left : list A)
  (right : list B) :
  (forall a, In a left -> (List.length (filter (on a) right) <= 1)%nat) ->
  map fst (pd.merge on left right)
  = filter (fun a => existsb (on a) right) left.
Proof.
  unfold pd.merge. induction left as [|a t IH]; intro Hone; simpl.
  - reflexivity.
  - rewrite map_app, IH by (intros x Hx; apply Hone; right; exact Hx).
    rewrite map_map. simpl.
    pose proof (Hone a (or_introl eq_refl)) as Ha.
    destruct (existsb (on a) right) eqn:E.
    + destruct (filter (on a) right) as [|b [|b' rest]] eqn:F.
      * exfalso. apply existsb_exists in E. destruct E as [b [Hb Hon]].
        assert (Hin : In b (filter (on a) right)) by (apply filter_In; tauto).
        rewrite F in Hin. exact Hin.
      * reflexivity.
      * simpl in Ha. lia.
    + destruct (filter (on a) right) as [|b rest] eqn:F; [reflexivity|].
      exfalso. assert (Hin : In b (filter (on a) right)) by (rewrite F; left; reflexivity).
      apply filter_In in Hin. destruct Hin as [Hb Hon].
      assert (existsb (on a) right = true)
        by (apply existsb_exists; exists b; tauto).
      congruence.
Qed.

(** A key that occurs once in a table selects at most one of its rows. *)
Lemma unique_key_at_most_one {B : Type} (key : B -> Z) (k : Z) (right : list B) :
  NoDup (map key right) ->
  (List.length (filter (fun b => (k =? key b)%Z) right) <= 1)%nat.
Proof.
  induction right as [|b t IH]; simpl; intro Hnd.
  - lia.
  - inversion Hnd as [|x l Hx Hl]; subst.
    destruct (k =? key b)%Z eqn:E.
    + apply Z.eqb_eq in E. subst k.
      assert (Hnone : filter (fun b0 => (key b =? key b0)%Z) t = []).
      { destruct (filter (fun b0 => (key b =? key b0)%Z) t) as [|c rest] eqn:F;
          [reflexivity|].
        exfalso. assert (Hc : In c (filter (fun b0 => (key b =? key b0)%Z) t))
          by (rewrite F; left; reflexivity).
        apply filter_In in Hc. destruct Hc as [Hc Hk]. apply Z.eqb_eq in Hk.
        apply Hx. rewrite Hk. apply in_map, Hc. }
      rewrite Hnone. simpl. lia.
    + apply IH, Hl.
Qed.

Lemma merge_length_le {A B : Type} (on : A -> B -> bool) (left : list A)
  (right : list B) :
  (forall a, In a left -> (List.length (filter (on a) right) <= 1)%nat) ->
  (List.length (pd.merge on left right) <= List.length left)%nat.
Proof.
  intro Hone. rewrite <- (length_map fst), (merge_at_most_one on left right Hone).
  apply filter_length_le.
Qed.

(** ** The cast to [int], inverted *)

Definition int_of (x : num) : Z :=
  match x with Num q => pd.truncate q | NaN => 0 end.

Lemma astype_int_inv (s : list num) (zs : list Z) :
  pd.astype_int s = Ok zs -> zs = map int_of s /\ ~ In NaN s.
Proof.
  revert zs. induction s as [|x t IH]; simpl; intros zs H.
  - inversion H. split; [reflexivity | tauto].
  - destruct x as [q|]; [|discriminate].
    destruct (pd.astype_int t) as [ws|e]; [|discriminate].
    inversion H; subst. destruct (IH ws eq_refl) as [E Hn]. subst ws.
    split; [reflexivity|]. intros [Hx|Hx]; [discriminate | exact (Hn Hx)].
Qed.

Lemma astype_int_cases (s : list num) :
  (In NaN s /\ pd.astype_int s = Raise IntCastingNaNError)
  \/ (~ In NaN s /\ pd.astype_int s = Ok (map int_of s)).
Proof.
  induction s as [|x t IH]; simpl.
  - right. split; [tauto | reflexivity].
  - destruct x as [q|].
    + destruct IH as [[Hn E]|[Hn E]]; rewrite E.
      * left. split; [right; exact Hn | reflexivity].
      * right. split; [|reflexivity]. intros [H|H]; [discriminate | exact (Hn H)].
    + left. split; [left; reflexivity | reflexivity].
Qed.

Lemma combine_map_self {A B : Type} (f : A -> B) (l : list A) :
  combine l (map f l) = map (fun x => (x, f x)) l.
Proof.
  induction l as [|x t IH]; simpl; [reflexivity | rewrite IH; reflexivity].
Qed.

(** ** The tables as loaded and joined *)




(** The row of [MASTER] that a lap makes with its driver, race and
    circuit. *)
Definition master_row (parse_text : string -> option Q)
  (l : LapTime.t) (d : Driver.t) (r : Race.t) (c : Circuit.t) : Master.t :=
  {| Master.raceId := LapTime.raceId l;
     Master.driverId := LapTime.driverId l;
     Master.lap := int_of (to_numeric parse_text (LapTime.lap l));
     Master.milliseconds := to_numeric parse_text (LapTime.milliseconds l);
     Master.driverRef := Driver.driverRef d;
     Master.year := Race.year r;
     Master.round := Race.round r;
     Master.circuitId := Race.circuitId r;
     Master.circuitName := Circuit.circuitName c;
     Master.lat := Circuit.lat c;
     Master.lng := Circuit.lng c;
     Master.lap_sec :=
       pd.div (to_numeric parse_text (LapTime.milliseconds l)) 1000 |}.

(** The row of [RESULTS] that a result makes with its driver and race. *)
Definition results_row (parse_text : string -> option Q)
  (x : Result.t) (d : Driver.t) (r : Race.t) : Results.t :=
  {| Results.raceId := Result.raceId x;
     Results.driverId := Result.driverId x;
     Results.points := to_numeric parse_text (Result.points x);
     Results.driverRef := Driver.driverRef d;
     Results.year := Race.year r;
     Results.round := Race.round r |}.

(** A lap, a driver, a race and a circuit that the three joins of
    [make_master] put together. *)
Definition joined (T : tables) (l : LapTime.t) (d : Driver.t) (r : Race.t)
  (c : Circuit.t) : Prop :=
  In l (lap_times T) /\ In d (drivers T) /\ In r (races T)
  /\ In c (circuits T)
  /\ LapTime.driverId l = Driver.driverId d
  /\ LapTime.raceId l = Race.raceId r
  /\ Race.circuitId r = Circuit.circuitId c.

Section Joins.

Variable parse_text : string -> option Q.








(** The rows that the three joins of [make_master] produce. *)
Lemma make_master_joined (T : tables) (l : LapTime.t) (d : Driver.t)
  (r : Race.t) (c : Circuit.t) :
  In (l, d, r, c)
    (pd.merge (fun '(l, _, r) c => (Race.circuitId r =? Circuit.circuitId c)%Z)
       (pd.merge (fun '(l, _) r => (LapTime.raceId l =? Race.raceId r)%Z)
          (pd.merge (fun l d => (LapTime.driverId l =? Driver.driverId d)%Z)
             (lap_times T) (drivers T))
          (races T))
       (circuits T))
  <-> joined T l d r c.
Proof.
  unfold joined. rewrite !merge_In. cbn. rewrite !Z.eqb_eq. tauto.
Qed.

(** X2.  When [make_master] returns, the rows of [MASTER] are exactly the
    rows made of a lap, a driver, a race and a circuit whose keys agree: a
    lap without its driver, race or circuit leaves no row.  Every lap number
    that was joined is a number, and in every row [lap_sec] is the duration
    divided by 1000. *)
Theorem make_master_rows :
  forall (T : tables) (M : list Master.t),
    make_master parse_text T = Ok M ->
    (forall m, In m M
               <-> exists l d r c, joined T l d r c
                                   /\ m = master_row parse_text l d r c)
    /\ (forall l d r c, joined T l d r c
                        -> to_numeric parse_text (LapTime.lap l) <> NaN)
    /\ Forall (fun m => Master.lap_sec m = pd.div (Master.milliseconds m) 1000)
         M.
Proof.
  intros T M H. unfold make_master in H.
  match type of H with
  | context [pd.astype_int (map ?f ?m)] => set (quads := m) in *; set (lapno := f) in *
  end.
  destruct (pd.astype_int (map lapno quads)) as [laps|e] eqn:E; [|discriminate].
  destruct (astype_int_inv _ _ E) as [Hl Hn]. subst laps.
  rewrite (map_map lapno int_of), combine_map_self, map_map in H.
  inversion H as [HM]. clear H.
  assert (Hrow : forall m, In m (map (fun x => (let '(l, d, r, c, lap) := (x, int_of (lapno x)) in
       let milliseconds := to_numeric parse_text (LapTime.milliseconds l) in
       {| Master.raceId := LapTime.raceId l;
          Master.driverId := LapTime.driverId l;
          Master.lap := lap;
          Master.milliseconds := milliseconds;
          Master.driverRef := Driver.driverRef d;
          Master.year := Race.year r;
          Master.round := Race.round r;
          Master.circuitId := Race.circuitId r;
          Master.circuitName := Circuit.circuitName c;
          Master.lat := Circuit.lat c;
          Master.lng := Circuit.lng c;
          Master.lap_sec := pd.div milliseconds 1000 |})) quads)
       <-> exists l d r c, joined T l d r c /\ m = master_row parse_text l d r c).
  { intro m. rewrite in_map_iff. split.
    - intros [[[[l d] r] c] [Em Hin]]. exists l, d, r, c.
      split; [apply make_master_joined; exact Hin | symmetry; exact Em].
    - intros [l [d [r [c [Hj Em]]]]]. exists (l, d, r, c).
      split; [symmetry; exact Em | apply make_master_joined; exact Hj]. }
  split; [exact Hrow|]. split.
  - intros l d r c Hj Hnan. apply Hn.
    apply make_master_joined in Hj.
    change (to_numeric parse_text (LapTime.lap l)) with (lapno (l, d, r, c)) in Hnan.
    rewrite <- Hnan. apply in_map, Hj.
  - apply Forall_forall. intros m Hm. apply Hrow in Hm.
    destruct Hm as [l [d [r [c [_ Em]]]]]. subst m. reflexivity.
Qed.

(** X3.  [make_master] raises, with the error of the cast to [int], exactly
    when a lap that finds its driver, race and circuit has a lap number that
    is coerced to NaN; an unreadable lap number on a lap that the joins drop
    does no harm. *)
Theorem make_master_cases :
  forall T : tables,
    ((exists l d r c, joined T l d r c
                      /\ to_numeric parse_text (LapTime.lap l) = NaN)
     /\ make_master parse_text T = Raise IntCastingNaNError)
    \/
    ((forall l d r c, joined T l d r c
                      -> to_numeric parse_text (LapTime.lap l) <> NaN)
     /\ exists M, make_master parse_text T = Ok M).
Proof.
  intro T. unfold make_master.
  match goal with
  | |- context [pd.astype_int (map ?f ?m)] => set (quads := m); set (lapno := f)
  end.
  destruct (astype_int_cases (map lapno quads)) as [[Hn E]|[Hn E]]; rewrite E.
  - left. split; [|reflexivity]. apply in_map_iff in Hn.
    destruct Hn as [[[[l d] r] c] [Hq Hin]]. exists l, d, r, c.
    split; [apply make_master_joined; exact Hin | exact Hq].
  - right. split.
    + intros l d r c Hj Hnan. apply Hn. apply make_master_joined in Hj.
      change (to_numeric parse_text (LapTime.lap l)) with (lapno (l, d, r, c)) in Hnan.
      rewrite <- Hnan. apply in_map, Hj.
    + eexists. reflexivity.
Qed.

(** X4.  The rows of [RESULTS] are exactly the rows made of a result, a
    driver and a race whose keys agree; a result without its driver or race
    leaves no row, and points that are not a number are kept as NaN. *)
Theorem make_results_rows :
  forall (T : tables) (row : Results.t),
    In row (make_results parse_text T)
    <-> exists x d r,
          In x (results T) /\ In d (drivers T) /\ In r (races T)
          /\ Result.driverId x = Driver.driverId d
          /\ Result.raceId x = Race.raceId r
          /\ row = results_row parse_text x d r.
Proof.
  intros T row. unfold make_results. rewrite in_map_iff. split.
  - intros [[[x d] r] [E Hin]]. apply merge_In in Hin.
    destruct Hin as [Hxd [Hr Hon]]. apply merge_In in Hxd.
    destruct Hxd as [Hx [Hd Hon']]. cbn in Hon. apply Z.eqb_eq in Hon, Hon'.
    exists x, d, r. repeat split; try assumption. symmetry; exact E.
  - intros [x [d [r [Hx [Hd [Hr [H1 [H2 E]]]]]]]]. exists (x, d, r).
    split; [symmetry; exact E|].
    apply merge_In. split; [|split; [exact Hr | cbn; apply Z.eqb_eq; exact H2]].
    apply merge_In. split; [exact Hx | split; [exact Hd | apply Z.eqb_eq; exact H1]].
Qed.

End Joins.

Lemma filter_filter {A : Type} (f g : A -> bool) (l : list A) :
  filter g (filter f l) = filter (fun x => f x && g x) l.
Proof.
  induction l as [|x t IH]; simpl; [reflexivity|].
  destruct (f x); simpl; [destruct (g x)|]; rewrite IH; reflexivity.
Qed.

Lemma map_fst_filter {A B : Type} (h : A -> bool) (l : list (A * B)) :
  map fst (filter (fun p => h (fst p)) l) = filter h (map fst l).
Proof.
  induction l as [|[a b] t IH]; simpl; [reflexivity|].
  destruct (h a); simpl; rewrite IH; reflexivity.
Qed.

Section UniqueKeys.

Variable parse_text : string -> option Q.

(** X5.  When no driverId occurs twice in the drivers table and no raceId
    twice in the races table, [RESULTS] holds the results that have a driver
    and a race, once each and in the order of the results table; the others
    are dropped. *)
Theorem make_results_keeps_results_once :
  forall T : tables,
    NoDup (map Driver.driverId (drivers T)) ->
    NoDup (map Race.raceId (races T)) ->
    map (fun row => (Results.raceId row, Results.driverId row,
                     Results.points row))
      (make_results parse_text T)
    = map (fun x => (Result.raceId x, Result.driverId x,
                     to_numeric parse_text (Result.points x)))
        (filter
           (fun x =>
              existsb (fun d => (Result.driverId x =? Driver.driverId d)%Z)
                (drivers T)
              && existsb (fun r => (Result.raceId x =? Race.raceId r)%Z)
                   (races T))
           (results T)).
Proof.
  intros T Hd Hr. unfold make_results. rewrite map_map.
  match goal with
  | |- map _ (pd.merge ?on2 (pd.merge ?on1 _ _) _) = map ?h _ =>
      transitivity
        (map h (map fst (map fst
           (pd.merge on2 (pd.merge on1 (results T) (drivers T)) (races T)))))
  end.
  { rewrite !map_map. apply map_ext. intros [[x d] r]. reflexivity. }
  f_equal.
  rewrite merge_at_most_one.
  - rewrite (filter_ext _
               (fun p : Result.t * Driver.t =>
                  existsb (fun r => (Result.raceId (fst p) =? Race.raceId r)%Z)
                    (races T)))
      by (intros [x d]; reflexivity).
    rewrite (map_fst_filter
               (fun x => existsb (fun r => (Result.raceId x =? Race.raceId r)%Z)
                           (races T))).
    rewrite merge_at_most_one.
    + apply filter_filter.
    + intros x _.
      apply (unique_key_at_most_one Driver.driverId (Result.driverId x)), Hd.
  - intros [x d] _.
    apply (unique_key_at_most_one Race.raceId (Result.raceId x)), Hr.
Qed.

End UniqueKeys.

Section MasterSize.

Variable parse_text : string -> option Q.

(** X6.  When no driverId, raceId or circuitId occurs twice in its table,
    [MASTER] has at most one row per lap: the joins never multiply laps. *)
Theorem make_master_no_more_rows_than_laps :
  forall (T : tables) (M : list Master.t),
    NoDup (map Driver.driverId (drivers T)) ->
    NoDup (map Race.raceId (races T)) ->
    NoDup (map Circuit.circuitId (circuits T)) ->
    make_master parse_text T = Ok M ->
    (List.length M <= List.length (lap_times T))%nat.
Proof.
  intros T M Hd Hr Hc H. unfold make_master in H.
  match type of H with
  | context [pd.astype_int (map ?f ?m)] => set (quads := m) in *
  end.
  destruct (pd.astype_int _) as [laps|e]; [|discriminate].
  inversion H as [HM]. rewrite length_map, length_combine.
  apply Nat.le_trans with (List.length quads); [apply Nat.le_min_l|].
  unfold quads.
  eapply Nat.le_trans.
  { apply merge_length_le. intros [[l d] r] _.
    apply (unique_key_at_most_one Circuit.circuitId (Race.circuitId r)), Hc. }
  eapply Nat.le_trans.
  { apply merge_length_le. intros [l d] _.
    apply (unique_key_at_most_one Race.raceId (LapTime.raceId l)), Hr. }
  apply merge_length_le. intros l _.
  apply (unique_key_at_most_one Driver.driverId (LapTime.driverId l)), Hd.
Qed.

End MasterSize.

(** ** The order of the options *)

Lemma compare_not_Gt_trans (a b c : string) :
  String.compare a b <> Gt -> String.compare b c <> Gt ->
  String.compare a c <> Gt.
Proof.
  revert b c.
  induction a as [|x a IH]; intros [|y b] [|z c]; simpl; try congruence.
  unfold Ascii.compare.
  destruct (N.compare_spec (N_of_ascii x) (N_of_ascii y)) as [Exy|Lxy|Gxy];
    destruct (N.compare_spec (N_of_ascii y) (N_of_ascii z)) as [Eyz|Lyz|Gyz];
    try congruence.
  - rewrite Exy, Eyz, N.compare_refl. apply IH.
  - intros _ _. rewrite Exy. apply N.compare_lt_iff in Lyz. rewrite Lyz.
    discriminate.
  - intros _ _. rewrite <- Eyz. apply N.compare_lt_iff in Lxy. rewrite Lxy.
    discriminate.
  - intros _ _. assert (H : (N_of_ascii x < N_of_ascii z)%N) by lia.
    apply N.compare_lt_iff in H. rewrite H. discriminate.
Qed.

Lemma string_leb_trans (a b c : string) :
  String.leb a b = true -> String.leb b c = true -> String.leb a c = true.
Proof.
  unfold String.leb. intros H1 H2.
  pose proof (compare_not_Gt_trans a b c) as H.
  destruct (String.compare a b); try discriminate;
    destruct (String.compare b c); try discriminate;
    destruct (String.compare a c); try reflexivity;
    exfalso; apply H; congruence.
Qed.

Lemma StronglySorted_strict {A : Type} (R : A -> A -> Prop) (l : list A) :
  StronglySorted R l -> NoDup l ->
  StronglySorted (fun a b => R a b /\ a <> b) l.
Proof.
  induction 1 as [|x t Hs IH Hall]; intro Hnd; constructor.
  - apply IH. inversion Hnd; assumption.
  - inversion Hnd as [|y l Hx Hl]; subst.
    rewrite Forall_forall in *. intros b Hb. split; [apply Hall, Hb|].
    intro E. subst b. exact (Hx Hb).
Qed.

Lemma years_NoDup (MASTER : list Master.t) : NoDup (years MASTER).
Proof.
  unfold years. eapply Permutation_NoDup.
  - apply Permutation_sym, sorted_perm.
  - apply (unique_NoDup Z.eqb Z.eqb_eq).
Qed.

Lemma drivers_of_NoDup (MASTER : list Master.t) (year : Z) :
  NoDup (drivers_of MASTER year).
Proof.
  unfold drivers_of. eapply Permutation_NoDup.
  - apply Permutation_sym, sorted_perm.
  - apply (unique_NoDup String.eqb String.eqb_eq).
Qed.

(** X7.  The seasons offered are the years of [MASTER], each once, from the
    latest to the earliest; the default of the season box, their first, is
    the latest year in the data; none is offered only when [MASTER] has no
    row. *)
Theorem years_latest_first :
  forall MASTER : list Master.t,
    StronglySorted (fun a b => (b < a)%Z) (years MASTER)
    /\ (forall year, In year (years MASTER)
                     <-> exists r, In r MASTER /\ Master.year r = year)
    /\ (forall y0, first (years MASTER) = Ok y0 ->
                   In y0 (map Master.year MASTER)
                   /\ forall r, In r MASTER -> (Master.year r <= y0)%Z)
    /\ (years MASTER = [] <-> MASTER = []).
Proof.
  intro MASTER.
  assert (Hsorted : StronglySorted (fun a b => (b < a)%Z) (years MASTER)).
  { apply (StronglySorted_weaken
             (fun a b => (b <=? a)%Z = true /\ a <> b)).
    - intros a b [H1 H2]. apply Z.leb_le in H1. lia.
    - apply StronglySorted_strict; [|apply years_NoDup].
      unfold years. apply sorted_sorted.
      + intros a b. destruct (Z.leb_spec b a); [left; reflexivity|].
        right. apply Z.leb_le. lia.
      + intros a b c. rewrite !Z.leb_le. lia. }
  split; [exact Hsorted|]. split; [apply years_In|]. split.
  - intros y0 Hy. destruct (years MASTER) as [|y ys] eqn:E; [discriminate|].
    inversion Hy; subst y0. split.
    + assert (Hin : In y (years MASTER)) by (rewrite E; left; reflexivity).
      apply years_In in Hin. destruct Hin as [r [Hr Hyr]].
      rewrite <- Hyr. apply in_map, Hr.
    + intros r Hr.
      assert (Hin : In (Master.year r) (years MASTER))
        by (apply years_In; exists r; tauto).
      rewrite E in Hin. apply StronglySorted_inv in Hsorted.
      destruct Hsorted as [_ Hall]. rewrite Forall_forall in Hall.
      destruct Hin as [Hin|Hin]; [lia|]. specialize (Hall _ Hin). lia.
  - split.
    + intro E. destruct MASTER as [|r t]; [reflexivity|]. exfalso.
      assert (Hin : In (Master.year r) (years (r :: t))).
      { apply years_In. exists r. split; [left|]; reflexivity. }
      rewrite E in Hin. exact Hin.
    + intro E. subst MASTER. reflexivity.
Qed.

(** X8.  The drivers offered for a season are the driverRef values of the
    rows of [MASTER] of that season, each once, in ascending alphabetical
    order; none is offered exactly when the season is not one of the seasons
    offered. *)
Theorem drivers_of_alphabetical :
  forall (MASTER : list Master.t) (year : Z),
    StronglySorted (fun a b => String.leb a b = true /\ a <> b)
      (drivers_of MASTER year)
    /\ (forall driver, In driver (drivers_of MASTER year)
                       <-> exists r, In r MASTER /\ Master.year r = year
                                     /\ Master.driverRef r = driver)
    /\ (drivers_of MASTER year = [] <-> ~ In year (years MASTER)).
Proof.
  intros MASTER year. split.
  - apply StronglySorted_strict; [|apply drivers_of_NoDup].
    unfold drivers_of. apply sorted_sorted.
    + apply String.leb_total.
    + apply string_leb_trans.
  - split; [intro driver; apply drivers_of_In|]. split.
    + intros E Hin. apply years_In in Hin. destruct Hin as [r [Hr Hy]].
      assert (Hd : In (Master.driverRef r) (drivers_of MASTER year))
        by (apply drivers_of_In; exists r; tauto).
      rewrite E in Hd. exact Hd.
    + intro Hout. destruct (drivers_of MASTER year) as [|d ds] eqn:E;
        [reflexivity|].
      exfalso. apply Hout.
      assert (Hd : In d (drivers_of MASTER year)) by (rewrite E; left; reflexivity).
      apply drivers_of_In in Hd. destruct Hd as [r [Hr [Hy _]]].
      apply years_In. exists r. tauto.
Qed.

Section Boxes.

Variable parse_text : string -> option Q.
Variable quicksort : forall A : Type, (A -> A -> bool) -> list A -> list A.

(** X9.  A select box without options ends the run in [IndexError]: with an
    empty [MASTER] the run dies at [years[0]] after the title, and when the
    season box hands back a season that is not in the data the run dies at
    [drivers[0]] after the season box; in both cases no warning, metric or
    chart is shown. *)
Theorem box_without_options_raises_IndexError :
  forall (T : tables) (MASTER : list Master.t) (RESULTS : list Results.t)
         (u : ui),
    (MASTER = [] ->
     dashboard parse_text quicksort T MASTER RESULTS u
     = ([sidebar true; text (Literal "# 🏁 F1 Deep-Dive Dashboard")],
        Error IndexError))
    /\ (forall y0,
           first (years MASTER) = Ok y0 ->
           ~ In (season u (years MASTER) y0) (years MASTER) ->
           dashboard parse_text quicksort T MASTER RESULTS u
           = ([sidebar true; text (Literal "# 🏁 F1 Deep-Dive Dashboard");
               selectbox_season "Select season" (years MASTER) y0],
              Error IndexError)).
Proof.
  intros T MASTER RESULTS u. split.
  - intro E. subst MASTER. reflexivity.
  - intros y0 Hy Hout.
    assert (Hd : drivers_of MASTER (season u (years MASTER) y0) = []).
    { destruct (drivers_of MASTER (season u (years MASTER) y0)) as [|d ds] eqn:E;
        [reflexivity|].
      exfalso. apply Hout.
      assert (Hin : In d (drivers_of MASTER (season u (years MASTER) y0)))
        by (rewrite E; left; reflexivity).
      apply drivers_of_In in Hin. destruct Hin as [r [Hr [Hyr _]]].
      apply years_In. exists r. tauto. }
    unfold dashboard. rewrite Hy. cbn [lift bind emit app].
    rewrite Hd. reflexivity.
Qed.

End Boxes.

(** ** The sections of the report *)

(** Settles a membership in a concrete list of events. *)
Ltac in_events H :=
  cbn [In] in H;
  repeat match type of H with
         | _ \/ _ => destruct H as [H|H]; [try discriminate H|]
         end;
  try discriminate H; try contradiction.

(** Finds an event in a concrete list of events. *)
Ltac find_event :=
  solve [cbn [In]; repeat (first [left; reflexivity | right])].

Section Report.

Variable parse_text : string -> option Q.
Variable quicksort : forall A : Type, (A -> A -> bool) -> list A -> list A.

Variable T : tables.
Variable RESULTS : list Results.t.
Variable year : Z.
Variable who : string.
Variable df : list Master.t.

Local Abbreviation rep := (report parse_text quicksort T RESULTS year who df).

Local Abbreviation stops :=
  (map (fun p => to_numeric parse_text (PitStop.stop p)) (pits T df)).

(** X10.  The average pit-stop card shows N/A exactly when the pit-stop
    section shows the alert "No pit-stop data", and the pit-stop chart is
    shown only when the card shows a value: card and section never
    disagree. *)
Theorem pit_card_and_section_agree :
  (avg_pit parse_text T df = None
   <-> In (alert "⚠️ No pit-stop data" "warning") (events rep))
  /\ (forall data title,
         In (plotly (fig4 data title)) (events rep) ->
         avg_pit parse_text T df <> None
         /\ ~ In (alert "⚠️ No pit-stop data" "warning") (events rep)).
Proof.
  unfold report, avg_pit.
  destruct (pits T df) as [|p ps] eqn:Ep; cbn [pd.empty negb].
  - destruct (pd.empty (pts_df RESULTS year who));
      destruct (pd.empty (map_df parse_text df));
      cbn [bind emit lift events fst app];
      (split;
       [split; [intros _; find_event | intros _; reflexivity]
       | intros data title H; in_events H]).
  - destruct (pd.astype_int _) as [stop|e];
      destruct (pd.empty (pts_df RESULTS year who));
      destruct (pd.empty (map_df parse_text df));
      cbn [bind emit lift events fst app];
      (split;
       [split; [discriminate | intro H; in_events H]
       | intros data title H; split;
         [discriminate | intro H'; in_events H']]).
Qed.

(** X11.  Sections 3 to 9 die, with the error of the cast to [int], exactly
    when a pit stop was joined and some joined stop number is coerced to
    NaN; otherwise they run to the end.  When they die, the metric cards,
    the first three charts and the pit-stop heading have been shown, and the
    points and circuits sections never are. *)
Theorem report_dies_on_unreadable_stop :
  (ending rep = Error IntCastingNaNError <-> In NaN stops)
  /\ (~ In NaN stops -> ending rep = Done tt)
  /\ (In NaN stops ->
      events rep
      = [separator; text (FastestLap (fastest_lap df));
         text (AvgPitStop (avg_pit parse_text T df));
         text (PointsYTD (pts RESULTS year who)); separator;
         plotly (fig1 df
           (title who ++ " — Lap times by circuit in " ++ str year));
         plotly (fig2 df
           (title who ++ " lap-time distribution (" ++ str year ++ ")"));
         plotly (fig3 (fastest_by_circ quicksort df)
           ("Fastest lap per circuit — " ++ title who ++ " " ++ str year));
         text (Literal "## 🛠 Pit-Stops Analysis")]).
Proof.
  unfold report.
  destruct (pits T df) as [|p ps] eqn:Ep; cbn [pd.empty map].
  - destruct (pd.empty (pts_df RESULTS year who));
      destruct (pd.empty (map_df parse_text df));
      cbn [bind emit lift ending events fst snd app];
      (split; [split; [discriminate | intros []] |]);
      (split; [reflexivity | intros []]).
  - destruct (astype_int_cases
                (map (fun p => to_numeric parse_text (PitStop.stop p)) (p :: ps)))
      as [[Hn E]|[Hn E]]; cbn [map] in Hn, E; rewrite E.
    + cbn [bind emit lift ending events fst snd app].
      split; [tauto|]. split; [tauto | reflexivity].
    + destruct (pd.empty (pts_df RESULTS year who));
        destruct (pd.empty (map_df parse_text df));
        cbn [bind emit lift ending events fst snd app];
        (split; [split; [discriminate | tauto] |]);
        (split; [reflexivity | tauto]).
Qed.

(** X12.  When sections 3 to 9 run to the end, the points section shows the
    alert "No points data" exactly when no result row matches the selection
    and otherwise the chart of the points by round; the circuits section
    shows the alert "No location data" exactly when no circuit of the
    subset has both coordinates and otherwise the map. *)
Theorem points_and_circuits_sections :
  ending rep = Done tt ->
  (In (alert "⚠️ No points data" "warning") (events rep)
   <-> pts_df RESULTS year who = [])
  /\ (pts_df RESULTS year who <> [] ->
      In (plotly (fig5 (points_by_round quicksort (pts_df RESULTS year who))
                    (title who ++ " points by round (" ++ str year ++ ")")))
        (events rep))
  /\ (In (alert "⚠️ No location data" "warning") (events rep)
      <-> map_df parse_text df = [])
  /\ (map_df parse_text df <> [] ->
      In (plotly (fig6 (map_df parse_text df)
                    (title who ++ " circuits in " ++ str year)))
        (events rep)).
Proof.
  unfold report.
  destruct (pits T df) as [|p ps] eqn:Ep; cbn [pd.empty];
    [|destruct (pd.astype_int _) as [stop|e]];
    destruct (pts_df RESULTS year who) as [|r rs] eqn:Er;
    destruct (map_df parse_text df) as [|m ms] eqn:Em;
    cbn [pd.empty bind emit lift ending events fst snd app];
    intro Hend; try discriminate Hend.
  all: (split; [split; [intro H; first [reflexivity | solve [in_events H]]
                       | intro H; first [find_event | discriminate H]] |]).
  all: (split; [intro H; first [find_event | congruence] |]).
  all: (split; [split; [intro H; first [reflexivity | solve [in_events H]]
                       | intro H; first [find_event | discriminate H]] |]).
  all: intro H; first [find_event | congruence].
Qed.

End Report.

(** ** Cards and charts drawn from the same rows *)

Lemma valid_perm (s s' : list num) :
  Permutation s s' -> Permutation (pd.valid s) (pd.valid s').
Proof.
  induction 1 as [|x l l' Hp IH|x y l|l l' l'' H1 IH1 H2 IH2]; simpl.
  - constructor.
  - destruct x; [apply perm_skip, IH | exact IH].
  - destruct x, y; try apply Permutation_refl; apply perm_swap.
  - eapply perm_trans; eassumption.
Qed.

Lemma add_up_perm (v v' : list Q) :
  Permutation v v' -> (add_up v == add_up v')%Q.
Proof.
  induction 1 as [|x l l' Hp IH|x y l|l l' l'' H1 IH1 H2 IH2]; simpl.
  - reflexivity.
  - rewrite IH. reflexivity.
  - ring.
  - rewrite IH1. exact IH2.
Qed.

Lemma sum_perm (s s' : list num) : Permutation s s' -> pd.sum s = pd.sum s'.
Proof.
  intro H. unfold pd.sum. f_equal. apply Qred_complete.
  rewrite !total_add_up. apply add_up_perm, valid_perm, H.
Qed.

Lemma valid_filter_notna (s : list num) : pd.valid (filter notna s) = pd.valid s.
Proof.
  induction s as [|x t IH]; simpl; [reflexivity|].
  destruct x as [q|]; simpl; rewrite IH; reflexivity.
Qed.

Lemma map_snd_dropna {A : Type} (key : A -> Z) (val : A -> num) (l : list A) :
  map snd (filter (fun rp : Z * num => notna (snd rp))
             (map (fun r => (key r, val r)) l))
  = filter notna (map val l).
Proof.
  induction l as [|x t IH]; simpl; [reflexivity|].
  destruct (notna (val x)); simpl; rewrite IH; reflexivity.
Qed.

Lemma groupby_min_has (df : list Master.t) (r : Master.t) :
  In r df ->
  In (Master.circuitName r,
      pd.min (map Master.lap_sec
                (filter (fun r' => (Master.circuitName r' =? Master.circuitName r)%string)
                   df)))
    (groupby_min df).
Proof.
  intro Hr. unfold groupby_min.
  apply (in_map (fun name =>
           (name, pd.min (map Master.lap_sec
                            (filter (fun r' => (Master.circuitName r' =? name)%string) df))))).
  apply sorted_In. apply (unique_In String.eqb String.eqb_eq).
  apply in_map, Hr.
Qed.

Section CardsAndCharts.

Variable quicksort : forall A : Type, (A -> A -> bool) -> list A -> list A.
Hypothesis quicksort_ok : sort_contract quicksort.

(** X13.  The points card shows the sum of the points drawn in the points
    chart: the total over the matching result rows equals the total over
    the pairs of [points_by_round]. *)
Theorem pts_is_total_of_points_by_round :
  forall (RESULTS : list Results.t) (year : Z) (driver : string),
    pts RESULTS year driver
    = pd.sum (map snd (points_by_round quicksort (pts_df RESULTS year driver))).
Proof.
  intros RESULTS year driver. unfold pts, points_by_round, sort_values_int, pd.dropna.
  fold (pts_df RESULTS year driver).
  rewrite (sum_perm _ _ (Permutation_map snd (proj1 quicksort_ok _ _ _))).
  rewrite map_snd_dropna. unfold pd.sum. rewrite valid_filter_notna.
  reflexivity.
Qed.

(** X14.  When result rows match the selection but none of them carries
    points, the points by round are empty and the points total is 0: the
    chart is drawn without data where the empty selection would have shown
    the alert. *)
Theorem points_all_missing :
  forall (RESULTS : list Results.t) (year : Z) (driver : string),
    pts_df RESULTS year driver <> [] ->
    (forall r, In r (pts_df RESULTS year driver) -> Results.points r = NaN) ->
    points_by_round quicksort (pts_df RESULTS year driver) = []
    /\ pts RESULTS year driver = Num 0
    /\ pd.empty (pts_df RESULTS year driver) = false.
Proof.
  intros RESULTS year driver Hne Hall.
  assert (Hnone : filter (fun rp : Z * num => notna (snd rp))
                    (map (fun r => (Results.round r, Results.points r))
                       (pts_df RESULTS year driver)) = []).
  { clear Hne. induction (pts_df RESULTS year driver) as [|r t IH];
      [reflexivity|].
    simpl. rewrite (Hall r (or_introl eq_refl)). simpl.
    apply IH. intros x Hx. apply Hall. right. exact Hx. }
  split; [|split].
  - unfold points_by_round, sort_values_int, pd.dropna. rewrite Hnone.
    apply Permutation_nil, Permutation_sym, (proj1 quicksort_ok).
  - unfold pts. fold (pts_df RESULTS year driver).
    assert (Hv : pd.valid (map Results.points (pts_df RESULTS year driver)) = []).
    { apply valid_nil. intros q Hq. apply in_map_iff in Hq.
      destruct Hq as [r [E Hr]]. rewrite (Hall r Hr) in E. discriminate. }
    unfold pd.sum. rewrite Hv. reflexivity.
  - destruct (pts_df RESULTS year driver); [congruence | reflexivity].
Qed.

End CardsAndCharts.

Section FastestFirst.

Variable quicksort : forall A : Type, (A -> A -> bool) -> list A -> list A.
Hypothesis quicksort_ok : sort_contract quicksort.

(** X15.  The first row of the fastest-lap-per-circuit table carries the
    fastest lap of the subset: the value of the card and the first bar of
    the chart are the same number (both NaN when the subset has no lap
    time). *)
Theorem fastest_circuit_comes_first :
  forall (df : list Master.t) (name : string) (v : num)
         (rest : list (string * num)),
    fastest_by_circ quicksort df = (name, v) :: rest ->
    num_eqb v (fastest_lap df) = true.
Proof.
  intros df name v rest E.
  assert (Hperm : Permutation (fastest_by_circ quicksort df) (groupby_min df))
    by (apply sort_values_perm; exact quicksort_ok).
  pose proof (sort_values_sorted quicksort quicksort_ok snd (groupby_min df))
    as Hsorted.
  fold (fastest_by_circ quicksort df) in Hsorted.
  rewrite E in Hperm, Hsorted.
  apply StronglySorted_inv in Hsorted. destruct Hsorted as [_ Hhead].
  rewrite Forall_forall in Hhead.
  assert (Hv : is_min (map Master.lap_sec
                         (filter (fun r => (Master.circuitName r =? name)%string) df))
                      v).
  { rewrite (groupby_min_In df name v); [apply min_is_min|].
    apply (Permutation_in _ Hperm). left. reflexivity. }
  pose proof (min_is_min (map Master.lap_sec df)) as Hg.
  unfold fastest_lap.
  assert (Hsub : forall q n,
             In (Num q) (map Master.lap_sec
                           (filter (fun r => (Master.circuitName r =? n)%string) df))
             -> In (Num q) (map Master.lap_sec df)).
  { intros q n Hq. apply in_map_iff in Hq. destruct Hq as [r [Hr Hin]].
    apply filter_In in Hin. apply in_map_iff. exists r. tauto. }
  destruct (pd.min (map Master.lap_sec df)) as [g|]; simpl in Hg.
  - destruct Hg as [Hgin Hgle].
    apply in_map_iff in Hgin. destruct Hgin as [r0 [Hr0 Hin0]].
    pose proof (groupby_min_has df r0 Hin0) as Hrow.
    set (v0 := pd.min (map Master.lap_sec
                         (filter (fun r' => (Master.circuitName r' =? Master.circuitName r0)%string)
                            df))) in *.
    assert (Hv0 : is_min (map Master.lap_sec
                            (filter (fun r' => (Master.circuitName r' =? Master.circuitName r0)%string)
                               df)) v0) by apply min_is_min.
    assert (Hg0 : In (Num g)
                    (map Master.lap_sec
                       (filter (fun r' => (Master.circuitName r' =? Master.circuitName r0)%string)
                          df))).
    { rewrite <- Hr0. apply in_map. apply filter_In.
      split; [exact Hin0 | apply String.eqb_refl]. }
    destruct v0 as [x0|]; simpl in Hv0; [|exfalso; exact (Hv0 g Hg0)].
    destruct Hv0 as [_ Hx0]. specialize (Hx0 g Hg0).
    apply (Permutation_in _ (Permutation_sym Hperm)) in Hrow.
    assert (Hle : num_leb v (Num x0) = true).
    { destruct Hrow as [Hrow|Hrow].
      - inversion Hrow. simpl. apply Qle_bool_iff, Qle_refl.
      - exact (Hhead _ Hrow). }
    destruct v as [q|]; [|discriminate Hle].
    simpl in Hle. apply Qle_bool_iff in Hle. simpl in Hv.
    destruct Hv as [Hqin _]. specialize (Hgle q (Hsub q name Hqin)).
    simpl. apply Qeq_bool_iff, Qle_antisym; [|exact Hgle].
    eapply Qle_trans; eassumption.
  - destruct v as [q|]; [|reflexivity].
    simpl in Hv. destruct Hv as [Hqin _].
    exfalso. exact (Hg q (Hsub q name Hqin)).
Qed.

End FastestFirst.

(** ** The circuits on the map *)

Lemma Qred_inject_Z (z : Z) : Qred (inject_Z z) = inject_Z z.
Proof.
  unfold Qred, inject_Z.
  pose proof (Z.ggcd_gcd z 1) as Hg.
  pose proof (Z.ggcd_correct_divisors z 1) as Hd.
  destruct (Z.ggcd z 1) as [g [a b]]. simpl in *.
  rewrite Z.gcd_1_r in Hg. subst g. destruct Hd as [Ha Hb].
  rewrite Z.mul_1_l in Ha, Hb. subst z. subst b. reflexivity.
Qed.

(** Two cells that [drop_duplicates] takes for one value are coerced to the
    same number. *)
Lemma cell_eqb_to_numeric (parse_text : string -> option Q) (a b : cell) :
  cell_eqb a b = true -> to_numeric parse_text a = to_numeric parse_text b.
Proof.
  destruct a as [x|p|s|], b as [y|q|t|]; simpl; try discriminate.
  - intro H. apply Z.eqb_eq in H. subst. reflexivity.
  - intro H. apply Qeq_bool_iff, Qred_complete in H.
    rewrite Qred_inject_Z in H. congruence.
  - intro H. apply Qeq_bool_iff, Qred_complete in H.
    rewrite Qred_inject_Z in H. congruence.
  - intro H. apply Qeq_bool_iff, Qred_complete in H. congruence.
  - intro H. apply String.eqb_eq in H. subst. reflexivity.
  - reflexivity.
Qed.

(** Every value of a list is kept by [drop_duplicates], or stands for a kept
    value that it equals under the test. *)
Lemma keep_first_represents {A : Type} (eqb : A -> A -> bool)
  (seen l : list A) (x : A) :
  In x l ->
  (exists y, In y seen /\ eqb x y = true)
  \/ (exists y, In y (pd.keep_first eqb seen l) /\ (y = x \/ eqb x y = true)).
Proof.
  revert seen. induction l as [|h t IH]; intros seen Hx; [destruct Hx|].
  simpl. destruct (existsb (eqb h) seen) eqn:E.
  - destruct Hx as [Hx|Hx].
    + subst h. left. apply existsb_exists in E. exact E.
    + apply IH, Hx.
  - destruct Hx as [Hx|Hx].
    + subst h. right. exists x. split; [left; reflexivity | left; reflexivity].
    + destruct (IH (h :: seen) Hx) as [[y [[Hy|Hy] He]]|[y [Hy He]]].
      * subst y. right. exists h. split; [left; reflexivity | right; exact He].
      * left. exists y. tauto.
      * right. exists y. split; [right; exact Hy | exact He].
Qed.

Section Map.

Variable parse_text : string -> option Q.

(** X16.  The circuit map holds a (name, latitude, longitude) triple
    exactly when some row of the subset has that circuit name and raw
    coordinates that are coerced to these two numbers: no triple with a
    missing coordinate is ever returned, and no circuit of the subset with
    two readable coordinates is lost. *)
Theorem map_df_rows :
  forall (df : list Master.t) (name : string) (lat lng : num),
    In (name, lat, lng) (map_df parse_text df)
    <-> lat <> NaN /\ lng <> NaN
        /\ exists r, In r df /\ Master.circuitName r = name
                     /\ to_numeric parse_text (Master.lat r) = lat
                     /\ to_numeric parse_text (Master.lng r) = lng.
Proof.
  intros df name lat lng. unfold map_df, pd.dropna, pd.drop_duplicates.
  rewrite filter_In, in_map_iff. split.
  - intros [[[[n la] lo] [E Hin]] Hk]. inversion E; subst. clear E.
    apply keep_first_incl in Hin. apply in_map_iff in Hin.
    destruct Hin as [r [Er Hr]]. inversion Er; subst. clear Er.
    apply andb_true_iff in Hk. destruct Hk as [H1 H2].
    split; [intro H; rewrite H in H1; discriminate|].
    split; [intro H; rewrite H in H2; discriminate|].
    exists r. tauto.
  - intros [Hla [Hlo [r [Hr [Hn [E1 E2]]]]]]. split.
    + assert (Hraw : In (Master.circuitName r, Master.lat r, Master.lng r)
                       (map (fun r => (Master.circuitName r, Master.lat r, Master.lng r)) df))
        by (apply (in_map (fun r => (Master.circuitName r, Master.lat r, Master.lng r))), Hr).
      destruct (keep_first_represents place_eqb [] _ _ Hraw)
        as [[y [[] _]]|[[[n la] lo] [Hy Hrep]]].
      exists (n, la, lo). split; [|exact Hy].
      destruct Hrep as [Hrep|Hrep].
      * inversion Hrep; subst. reflexivity.
      * simpl in Hrep. apply andb_true_iff in Hrep. destruct Hrep as [H12 H3].
        apply andb_true_iff in H12. destruct H12 as [H1 H2].
        apply String.eqb_eq in H1.
        rewrite <- (cell_eqb_to_numeric parse_text _ _ H2),
                <- (cell_eqb_to_numeric parse_text _ _ H3).
        congruence.
    + destruct lat, lng; try congruence. reflexivity.
Qed.

End Map.

Section Slots.

Variable parse_text : string -> option Q.
Variable quicksort : forall A : Type, (A -> A -> bool) -> list A -> list A.

(** X17.  When sections 3 to 9 run to the end they show exactly the three
    metric cards, in the order fastest lap, average pit stop, points, and
    fill each of the six chart places with a chart or with an alert: charts
    and alerts together are always six. *)
Theorem completed_report_fills_every_place :
  forall (T : tables) (RESULTS : list Results.t) (year : Z) (who : string)
         (df : list Master.t),
    ending (report parse_text quicksort T RESULTS year who df) = Done tt ->
    filter is_metric (events (report parse_text quicksort T RESULTS year who df))
    = [text (FastestLap (fastest_lap df));
       text (AvgPitStop (avg_pit parse_text T df));
       text (PointsYTD (pts RESULTS year who))]
    /\ (List.length
          (filter is_plotly
             (events (report parse_text quicksort T RESULTS year who df)))
        + List.length
            (filter is_alert
               (events (report parse_text quicksort T RESULTS year who df)))
        = 6)%nat.
Proof.
  intros T RESULTS year who df. unfold report.
  destruct (pd.empty (pits T df));
    [|destruct (pd.astype_int _) as [stop|e]];
    destruct (pd.empty (pts_df RESULTS year who));
    destruct (pd.empty (map_df parse_text df));
    cbn [bind emit lift ending events fst snd app];
    intro Hend; try discriminate Hend; split; reflexivity.
Qed.

End Slots.

(** ** More examples, run *)

(** The season box holds a season that the data do not have. *)
Definition unknown_season : ui :=
  {| season := fun _ _ => 1999; driver := fun _ default => default |}.

(** One of the two pit stops has a stop number that is not a number. *)
Definition unreadable_stop : source :=
  {| src_races := [race 1 (CInt 2021) 1 1];
     src_lap_times := [lap_time 1 1 (CInt 1) (CInt 90000)];
     src_results := [result_row 1 1 (CInt 25)];
     src_drivers := [driver_row 1 "max_verstappen"];
     src_circuits := [circuit 1 "Monza" (CFloat 45.62) (CFloat 9.28)];
     src_pit_stops :=
       [pit_stop 1 1 (CInt 1) (CInt 22000); pit_stop 1 1 (CStr "n/a") (CInt 24000)] |}.

(** Proves that a concrete list of integers has no repetition. *)
Ltac no_repetition :=
  vm_compute;
  repeat (constructor; [cbn; intuition discriminate|]);
  constructor.

Lemma make_master_rows_witness :
  List.length (master_of two_seasons) = 5%nat
  /\ Forall (fun m => Master.lap_sec m = pd.div (Master.milliseconds m) 1000)
       (master_of two_seasons).
Proof.
  split; [reflexivity|].
  apply (make_master_rows decimal_literal (tables_of two_seasons)
           (master_of two_seasons)).
  reflexivity.
Defined.

Lemma make_results_keeps_results_once_witness :
  map (fun row => (Results.raceId row, Results.driverId row, Results.points row))
    (make_results decimal_literal (tables_of two_seasons))
  = [(1, 1, Num 25); (2, 1, NaN); (3, 2, Num 18)].
Proof.
  rewrite (make_results_keeps_results_once decimal_literal
             (tables_of two_seasons)).
  - reflexivity.
  - no_repetition.
  - no_repetition.
Defined.

Lemma make_master_no_more_rows_than_laps_witness :
  (List.length (master_of two_seasons)
   <= List.length (lap_times (tables_of two_seasons)))%nat.
Proof.
  apply (make_master_no_more_rows_than_laps decimal_literal
           (tables_of two_seasons) (master_of two_seasons)).
  - no_repetition.
  - no_repetition.
  - no_repetition.
  - reflexivity.
Defined.

Lemma box_without_options_raises_IndexError_witness :
  dashboard decimal_literal ties_kept (tables_of two_seasons)
    (master_of two_seasons) (results_of two_seasons) unknown_season
  = ([sidebar true; text (Literal "# 🏁 F1 Deep-Dive Dashboard");
      selectbox_season "Select season" [2021; 2020] 2021],
     Error IndexError).
Proof.
  apply (proj2 (box_without_options_raises_IndexError decimal_literal ties_kept
                  (tables_of two_seasons) (master_of two_seasons)
                  (results_of two_seasons) unknown_season) 2021).
  - reflexivity.
  - intro H. vm_compute in H. destruct H as [H|[H|H]]; try discriminate H.
    exact H.
Defined.

Lemma report_dies_on_unreadable_stop_witness :
  ending (report decimal_literal ties_kept (tables_of unreadable_stop)
            (results_of unreadable_stop) 2021 "max_verstappen"
            (df (master_of unreadable_stop) 2021 "max_verstappen"))
  = Error IntCastingNaNError.
Proof.
  apply (report_dies_on_unreadable_stop decimal_literal ties_kept
           (tables_of unreadable_stop) (results_of unreadable_stop) 2021
           "max_verstappen"
           (df (master_of unreadable_stop) 2021 "max_verstappen")).
  vm_compute. right. left. reflexivity.
Defined.

Lemma points_and_circuits_sections_witness :
  In (plotly (fig5 (points_by_round ties_kept
                      (pts_df (results_of two_seasons) 2021 "max_verstappen"))
                (title "max_verstappen" ++ " points by round (" ++ str 2021 ++ ")")))
    (events (report decimal_literal ties_kept (tables_of two_seasons)
               (results_of two_seasons) 2021 "max_verstappen" verstappen_2021)).
Proof.
  destruct (points_and_circuits_sections decimal_literal ties_kept
              (tables_of two_seasons) (results_of two_seasons) 2021
              "max_verstappen" verstappen_2021) as [_ [Hchart _]].
  - vm_compute. reflexivity.
  - apply Hchart. vm_compute. discriminate.
Defined.

Lemma pts_is_total_of_points_by_round_witness :
  pts (results_of two_seasons) 2021 "max_verstappen"
  = pd.sum (map snd (points_by_round ties_kept
                       (pts_df (results_of two_seasons) 2021 "max_verstappen"))).
Proof.
  exact (pts_is_total_of_points_by_round ties_kept ties_kept_contract
           (results_of two_seasons) 2021 "max_verstappen").
Defined.

Lemma points_all_missing_witness :
  points_by_round ties_kept
    (pts_df (results_of unreadable_values) 2021 "max_verstappen") = []
  /\ pts (results_of unreadable_values) 2021 "max_verstappen" = Num 0
  /\ pd.empty (pts_df (results_of unreadable_values) 2021 "max_verstappen")
     = false.
Proof.
  apply (points_all_missing ties_kept ties_kept_contract
           (results_of unreadable_values) 2021 "max_verstappen").
  - discriminate.
  - intros r Hr. each_row Hr ltac:(reflexivity).
Defined.

Lemma fastest_circuit_comes_first_witness :
  num_eqb (Num 85) (fastest_lap verstappen_2021) = true.
Proof.
  apply (fastest_circuit_comes_first ties_kept ties_kept_contract
           verstappen_2021 "Monza" (Num 85) [("Silverstone", Num (459 # 5))]).
  reflexivity.
Defined.

Lemma completed_report_fills_every_place_witness :
  (List.length
     (filter is_plotly
        (events (report decimal_literal ties_kept (tables_of two_seasons)
                   (results_of two_seasons) 2021 "max_verstappen"
                   verstappen_2021)))
   + List.length
       (filter is_alert
          (events (report decimal_literal ties_kept (tables_of two_seasons)
                     (results_of two_seasons) 2021 "max_verstappen"
                     verstappen_2021)))
   = 6)%nat.
Proof.
  apply (completed_report_fills_every_place decimal_literal ties_kept
           (tables_of two_seasons) (results_of two_seasons) 2021
           "max_verstappen" verstappen_2021).
  reflexivity.
Defined.
